(** * Expense tracker: the extraction heuristic and the ledger store

    A shallow embedding of [tools.py] (the free-text extractor), of
    [tracker_agent.py] (the CSV-backed ledger) and of the summary tab of
    [app.py], with the properties of the specification stated and proved
    over it.

    Modelling conventions, and where each of them is exact.
    - A Python [str] is a [string]; a character is an [ascii]. The case,
      whitespace and digit classes are the ASCII ones ([str.lower],
      [str.split], [str.isdigit], [str.title], [\s] and [\d] restricted to
      code points below 128); bytes above 127 are caseless symbols. On
      [ascii_text] these are the classes of Python; a property that speaks
      of particular characters is stated for such text.
    - A Python [float] obtained from a decimal numeral is the rational the
      numeral denotes ([Q]), and sums are sums of rationals. The machine
      holds binary64 numbers and rounds every sum: the two agree on
      [whole_amounts], whole numbers that stay far below 2^53, and a
      property that depends on the value of a sum is stated for such
      amounts. [Binary64] gives the rational a binary64 number stands for.
    - [None] is [None]; a Python value used as a condition goes through an
      explicit truthiness function.
    - The CSV file is the list of its rows, and [pd.read_csv] after [to_csv]
      gives the rows back. This is what pandas does on a [plain_store]; it
      reads a cell such as [N/A] as a missing value and a cell such as [12]
      as a number, so a property that depends on what is read back is
      stated for plain cells. Faults of the storage medium are outside the
      model, and so are the [except] branches that only they can reach.
    - [datetime.today()] is an argument of the operation that reads it. *)

From Stdlib Require Import Ascii String List ZArith QArith Lia Lqa Bool Floats.
From stdpp Require Import base option list gmap strings.

Local Open Scope stdpp_scope.

(** Let [simpl] compute the append of a string that starts with a character. *)
#[local] Arguments String.append !s1 s2 / : simpl nomatch.

(** ** Python string primitives *)

Module PyStr.

Definition code (c : ascii) : nat := nat_of_ascii c.

Definition between (lo hi : nat) (c : ascii) : bool :=
  Nat.leb lo (code c) && Nat.leb (code c) hi.

(** [c.isspace()]: tab, newline, vertical tab, form feed, carriage return,
    the four separators 0x1c..0x1f, and the space. *)
Definition isspace (c : ascii) : bool := between 9 13 c || between 28 32 c.

(** [c.isdigit()], and the class [\d] of the amount pattern: on ASCII the
    two are the same ten digits. *)
Definition isdigit (c : ascii) : bool := between 48 57 c.

Definition isupper (c : ascii) : bool := between 65 90 c.
Definition islower (c : ascii) : bool := between 97 122 c.

(** A cased character, as [str.title] understands it. *)
Definition iscased (c : ascii) : bool := isupper c || islower c.

Definition lower_char (c : ascii) : ascii :=
  if isupper c then ascii_of_nat (code c + 32) else c.

Definition upper_char (c : ascii) : ascii :=
  if islower c then ascii_of_nat (code c - 32) else c.

(** [s.lower()], on ASCII text. *)
Fixpoint lower (s : string) : string :=
  match s with
  | EmptyString => EmptyString
  | String c s' => String (lower_char c) (lower s')
  end.

(** [s.startswith(p)] *)
Fixpoint startswith (p s : string) : bool :=
  match p, s with
  | EmptyString, _ => true
  | String _ _, EmptyString => false
  | String a p', String b s' => if Ascii.eqb a b then startswith p' s' else false
  end.

(** [k in s] for strings: [k] occurs as a substring of [s]. *)
Fixpoint contains (k s : string) : bool :=
  startswith k s ||
  match s with
  | EmptyString => false
  | String _ s' => contains k s'
  end.

(** [any(k in s for k in ks)] *)
Definition any_in (ks : list string) (s : string) : bool :=
  existsb (fun k => contains k s) ks.

(** [any(ch.isdigit() for ch in s)] *)
Fixpoint has_digit (s : string) : bool :=
  match s with
  | EmptyString => false
  | String c s' => isdigit c || has_digit s'
  end.

(** [s.split()]: the maximal runs of non-whitespace characters, in order.
    [cur] is the run being read. *)
Fixpoint split_from (cur : string) (s : string) : list string :=
  match s with
  | EmptyString => match cur with EmptyString => [] | _ => [cur] end
  | String c s' =>
      if isspace c
      then match cur with
           | EmptyString => split_from EmptyString s'
           | _ => cur :: split_from EmptyString s'
           end
      else split_from (cur +:+ String c EmptyString) s'
  end.

Definition split (s : string) : list string := split_from EmptyString s.

(** [sep.join(l)] *)
Fixpoint join (sep : string) (l : list string) : string :=
  match l with
  | [] => EmptyString
  | [x] => x
  | x :: l' => x +:+ sep +:+ join sep l'
  end.

(** [s.lstrip()], [s.rstrip()], [s.strip()] *)
Fixpoint lstrip (s : string) : string :=
  match s with
  | EmptyString => EmptyString
  | String c s' => if isspace c then lstrip s' else s
  end.

Fixpoint rstrip (s : string) : string :=
  match s with
  | EmptyString => EmptyString
  | String c s' =>
      match rstrip s' with
      | EmptyString => if isspace c then EmptyString else String c EmptyString
      | r => String c r
      end
  end.

Definition strip (s : string) : string := rstrip (lstrip s).

(** [s.replace(old, "")] for a non-empty [old]: the occurrences of [old]
    are removed, scanning from the left without overlap. [skip] counts the
    characters of the current occurrence still to be dropped. *)
Fixpoint remove_from (old : string) (skip : nat) (s : string) : string :=
  match s with
  | EmptyString => EmptyString
  | String c s' =>
      match skip with
      | S k => remove_from old k s'
      | O =>
          if startswith old s
          then remove_from old (String.length old - 1) s'
          else String c (remove_from old 0 s')
      end
  end.

Definition remove (old s : string) : string := remove_from old 0 s.

(** [s.title()], on ASCII text: a cased character is upper-cased when the
    character before it is not cased and lower-cased otherwise. *)
Fixpoint title_from (prev_cased : bool) (s : string) : string :=
  match s with
  | EmptyString => EmptyString
  | String c s' =>
      if iscased c
      then String (if prev_cased then lower_char c else upper_char c)
                  (title_from true s')
      else String c (title_from false s')
  end.

Definition title (s : string) : string := title_from false s.

(** [k in l] for a list of strings *)
Definition member (k : string) (l : list string) : bool :=
  existsb (String.eqb k) l.

(** [l.index(k)]: the position of the first [k]; [None] stands for the
    [ValueError] raised when there is none. *)
Fixpoint index (k : string) (l : list string) : option nat :=
  match l with
  | [] => None
  | x :: l' => if String.eqb k x then Some 0 else S <$> index k l'
  end.

(** Truthiness of an [Optional[str]]: neither [None] nor the empty string. *)
Definition truthy (o : option string) : bool :=
  match o with
  | Some (String _ _) => true
  | _ => false
  end.

End PyStr.

(** ** tools.py *)

Module Tools.
Import PyStr.

(** *** The amount pattern

    [(?:₹|rs\.?|inr|usd|\$)?\s*(\d+(?:\.\d{1,2})?)] *)

(** The alternatives of the optional currency marker in the order the
    matcher tries them; [rs\.?] is greedy, so [rs.] comes before [rs], and
    the empty string stands for the marker left out. *)
Definition currency_markers : list string :=
  ["₹"; "rs."; "rs"; "inr"; "usd"; "$"; ""].

(** [s[len(p):]] when [s] starts with [p] *)
Fixpoint strip_prefix (p s : string) : option string :=
  match p, s with
  | EmptyString, _ => Some s
  | String _ _, EmptyString => None
  | String a p', String b s' => if Ascii.eqb a b then strip_prefix p' s' else None
  end.

(** [\d+] and [\d{1,2}]: the longest run of at most [n] digits at the head
    of [s], and what follows it. *)
Fixpoint take_digits (n : nat) (s : string) : string * string :=
  match n, s with
  | S n', String c s' =>
      if isdigit c
      then let '(ds, rest) := take_digits n' s' in (String c ds, rest)
      else (EmptyString, s)
  | _, _ => (EmptyString, s)
  end.

(** [(\d+(?:\.\d{1,2})?)] at the head of [s]: group 1 as its integer digits
    and its fraction digits (empty when the fraction is absent). *)
Definition match_number (s : string) : option (string * string) :=
  match take_digits (String.length s) s with
  | (EmptyString, _) => None
  | (ds, String "." rest) =>
      let '(fs, _) := take_digits 2 rest in Some (ds, fs)
  | (ds, _) => Some (ds, EmptyString)
  end.

(** [\s*(\d+(?:\.\d{1,2})?)]. The whitespace run is taken whole: giving a
    space back cannot help, the next item wants a digit. *)
Definition match_spaces_number (s : string) : option (string * string) :=
  match_number (lstrip s).

(** The whole pattern anchored at the head of [s]: the first alternative of
    the marker after which the rest matches. *)
Definition match_here (s : string) : option (string * string) :=
  (fix try (ms : list string) : option (string * string) :=
     match ms with
     | [] => None
     | m :: ms' =>
         match strip_prefix m s ≫= match_spaces_number with
         | Some g => Some g
         | None => try ms'
         end
     end) currency_markers.

(** [re.search(amount_pattern, s)]: the match at the leftmost position that
    has one; the result is [match.group(1)]. *)
Fixpoint re_search (s : string) : option (string * string) :=
  match match_here s with
  | Some g => Some g
  | None =>
      match s with
      | EmptyString => None
      | String _ s' => re_search s'
      end
  end.

(** The value of a string of decimal digits. *)
Definition digit_value (c : ascii) : Z := Z.of_nat (code c - 48).

Fixpoint digits_value (acc : Z) (s : string) : Z :=
  match s with
  | EmptyString => acc
  | String c s' => digits_value (10 * acc + digit_value c) s'
  end.

(** [float(g)] for a group [g] of the amount pattern: the rational that the
    numeral denotes. Python rounds it to the nearest binary64 number. *)
Definition float (g : string * string) : Q :=
  let '(ds, fs) := g in
  Qmake (digits_value 0 (ds +:+ fs)) (Z.to_pos (10 ^ Z.of_nat (String.length fs))).

(** *** Keyword tables *)

Definition expense_keywords : list string :=
  ["spent"; "paid"; "bought"; "purchased"; "ate"; "gave"; "cost"; "costs";
   "bill"; "bills"; "expense"; "expenses"; "shopping"; "shop"; "buy"].

Definition income_keywords : list string :=
  ["received"; "got"; "earned"; "salary"; "income"; "profit"; "bonus";
   "refund"; "returned"; "cashback"; "won"; "gift"; "allowance"].

Definition expense_context : list string :=
  ["food"; "groceries"; "restaurant"; "fuel"; "gas"; "movie"; "clothes"].

Definition income_context : list string :=
  ["work"; "job"; "freelance"; "project"; "client"].

(** A [dict] literal that is only iterated, in insertion order. *)
Definition category_keywords : list (string * list string) :=
  [("Food & Dining", ["food"; "restaurant"; "lunch"; "dinner"; "breakfast"; "ate"; "pizza"; "coffee"; "snack"]);
   ("Groceries", ["groceries"; "grocery"; "supermarket"; "vegetables"; "fruits"; "milk"; "bread"]);
   ("Transportation", ["fuel"; "gas"; "petrol"; "diesel"; "uber"; "taxi"; "bus"; "train"; "metro"]);
   ("Entertainment", ["movie"; "movies"; "cinema"; "game"; "games"; "party"; "concert"; "show"]);
   ("Shopping", ["clothes"; "clothing"; "shoes"; "dress"; "shirt"; "shopping"; "mall"]);
   ("Bills & Utilities", ["bill"; "bills"; "electricity"; "water"; "internet"; "phone"; "rent"]);
   ("Health & Medical", ["doctor"; "medicine"; "hospital"; "pharmacy"; "medical"; "health"]);
   ("Education", ["books"; "course"; "class"; "tuition"; "fees"; "school"; "college"])].

Definition income_sources : list (string * list string) :=
  [("Salary", ["salary"; "job"; "work"; "employment"; "paycheck"]);
   ("Freelance", ["freelance"; "freelancing"; "client"; "project"; "contract"]);
   ("Business", ["business"; "sales"; "profit"; "revenue"]);
   ("Investment", ["investment"; "dividend"; "interest"; "stocks"; "mutual"]);
   ("Gift", ["gift"; "present"; "birthday"; "wedding"]);
   ("Refund", ["refund"; "return"; "cashback"]);
   ("Allowance", ["allowance"; "pocket money"; "parents"])].

Definition prepositions : list string := ["on"; "for"; "to"; "at"].

(** [for cat, keywords in table.items(): if any(...): category = cat; break] *)
Fixpoint first_bucket (table : list (string * list string)) (text_lower : string)
  : option string :=
  match table with
  | [] => None
  | (cat, keywords) :: table' =>
      if any_in keywords text_lower then Some cat else first_bucket table' text_lower
  end.

(** *** extract_category_for_expense *)

(** The two [replace] calls and the [strip] of line 102. *)
Definition clean_up (category : string) : string :=
  strip (remove "a" (remove "the" category)).

(** The loop over the prepositions, entered with [category = None]; the
    result is [category] when the loop ends. *)
Fixpoint preposition_loop (keywords : list string) (words : list string)
  : option string :=
  match keywords with
  | [] => None
  | keyword :: keywords' =>
      if member keyword words then
        match index keyword words with
        | Some idx =>
            if Nat.ltb (idx + 1) (length words)
            then Some (clean_up (strip (join " " (drop (idx + 1) words))))
            else preposition_loop keywords' words
        | None => preposition_loop keywords' words
        end
      else preposition_loop keywords' words
  end.

(** The loop of lines 112-116. *)
Fixpoint words_after_amount (found_number : bool) (words : list string)
  : list string :=
  match words with
  | [] => []
  | word :: words' =>
      if has_digit word then words_after_amount true words'
      else if found_number then word :: words_after_amount found_number words'
      else words_after_amount found_number words'
  end.

Definition extract_category_for_expense (text_lower : string) (words : list string)
  : string :=
  let category := first_bucket category_keywords text_lower in
  let category :=
    if negb (truthy category) then preposition_loop prepositions words
    else category in
  let category :=
    if negb (truthy category) && has_digit text_lower then
      match words_after_amount false words with
      | [] => category
      | after => Some (strip (join " " (take 3 after)))
      end
    else category in
  match category with
  | Some (String _ _ as c) => title c
  | _ => "Miscellaneous"
  end.

(** *** extract_category_for_income *)

Definition extract_category_for_income (text_lower : string) (words : list string)
  : string :=
  let category := first_bucket income_sources text_lower in
  let category :=
    if negb (truthy category) && member "from" words then
      match index "from" words with
      | Some idx =>
          if Nat.ltb (idx + 1) (length words)
          then Some (strip (join " " (drop (idx + 1) words)))
          else category
      | None => category
      end
    else category in
  match category with
  | Some (String _ _ as c) => title c
  | _ => "Other Income"
  end.

(** *** extract_expense_info *)

(** The returned [dict], whose three keys are fixed. *)
Record info := Info {
  Amount : option Q;
  Category : option string;
  Type_ : option string
}.

(** Truthiness of an [Optional[float]]: neither [None] nor zero. *)
Definition truthy_amount (a : option Q) : bool :=
  match a with
  | Some q => negb (Qeq_bool q 0)
  | None => false
  end.

Definition extract_expense_info (text : string) : info :=
  let amount := float <$> re_search (lower text) in
  let text_lower := lower text in
  let words := split text_lower in
  if any_in expense_keywords text_lower then
    Info amount (Some (extract_category_for_expense text_lower words)) (Some "Expense")
  else if any_in income_keywords text_lower then
    Info amount (Some (extract_category_for_income text_lower words)) (Some "Income")
  else if truthy_amount amount then
    if any_in expense_context text_lower then
      Info amount (Some (extract_category_for_expense text_lower words)) (Some "Expense")
    else if any_in income_context text_lower then
      Info amount (Some (extract_category_for_income text_lower words)) (Some "Income")
    else Info amount None None
  else Info amount None None.

(** [validate_transaction_data]; its arguments are whatever the caller
    extracted, so each may be [None]. *)
Definition validate_transaction_data
  (amount : option Q) (category : option string) (transaction_type : option string)
  : bool :=
  if negb (truthy_amount amount) || match amount with Some q => Qle_bool q 0 | None => false end
  then false
  else if negb (truthy category)
          || match category with Some c => Nat.eqb (String.length (strip c)) 0 | None => false end
  then false
  else match transaction_type with
       | Some t => member t ["Income"; "Expense"]
       | None => false
       end.

End Tools.

(** ** Binary64 numbers *)

Module Binary64.

(** The rational that a finite binary64 number stands for; 0 for the
    infinities and NaN. *)
Definition value (x : PrimFloat.float) : Q :=
  match Prim2SF x with
  | S754_finite s m e =>
      let n := if s then Z.neg m else Z.pos m in
      if (0 <=? e)%Z then inject_Z (n * 2 ^ e) else n # Z.to_pos (2 ^ (- e))
  | _ => 0
  end.

(** [float("0.1")] and [float("0.2")]: the binary64 numbers nearest to one
    tenth and to two tenths. *)
Definition one_tenth : PrimFloat.float := (1 / 10)%float.
Definition two_tenths : PrimFloat.float := (2 / 10)%float.

End Binary64.

(** ** tracker_agent.py *)

Module TrackerAgent.

(** A row of the data frame, with the four columns of the header. *)
Record row := Row {
  Amount : Q;
  Category : string;
  Type_ : string;
  Date : string
}.

(** The contents of [CSV_FILE]. Importing the module creates the file with
    the header and no row when it does not exist. *)
Definition csv : Type := list row.
Definition initial : csv := [].

(** Code that reads and writes the file: a state monad over its contents. *)
Definition io (A : Type) : Type := csv → A * csv.

#[global] Instance io_ret : MRet io := λ A a file, (a, file).
#[global] Instance io_bind : MBind io :=
  λ A B k m file, let '(a, file') := m file in k a file'.

(** [pd.read_csv(CSV_FILE)] and [df.to_csv(CSV_FILE, index=False)], on the
    rows that pandas reads back as they were written (the [plain_store]s
    below). *)
Definition read_csv : io (list row) := λ file, (file, file).
Definition to_csv (df : list row) : io unit := λ _, (tt, df).

(** The messages; the formatted ones carry the values they print. *)
Inductive message :=
  | Saved (amount : Q) (category type : string)
  | CouldNotUnderstand
  | NoRecordsFound
  | AllDataReset
  | TransactionDeleted (amount : Q) (category : string)
  | InvalidTransactionIndex
  | ErrorDeleting.

(** The values of the summary's ["data"] dict. *)
Inductive value :=
  | Num (q : Q)
  | Dict (m : gmap string Q)
  | Records (l : list row).

(** What a response carries besides ["success"] and ["message"]. *)
Inductive payload :=
  | transaction (new_row : row)
  | extracted (data : Tools.info)
  | data (d : gmap string value)
  | rows (l : list row)
  | deleted_transaction (deleted_row : row)
  | nothing.

Record response := Response {
  success : bool;
  msg : option message;
  extra : payload
}.

(** [save_transaction]; [today] is [datetime.today().strftime('%Y-%m-%d')].
    Past the guard the three fields are present, so the last branch of the
    [match] is never taken. *)
Definition save_transaction (today : string) (user_input : string) : io response :=
  let data := Tools.extract_expense_info user_input in
  if Tools.truthy_amount (Tools.Amount data)
     && PyStr.truthy (Tools.Category data)
     && PyStr.truthy (Tools.Type_ data)
  then
    match Tools.Amount data, Tools.Category data, Tools.Type_ data with
    | Some amount, Some category, Some type =>
        df ← read_csv;
        let new_row := Row amount (PyStr.title category) type today in
        let df := df ++ [new_row] in
        _ ← to_csv df;
        mret (Response true (Some (Saved amount category type)) (transaction new_row))
    | _, _, _ => mret (Response false (Some CouldNotUnderstand) (extracted data))
    end
  else mret (Response false (Some CouldNotUnderstand) (extracted data)).

(** [df[df["Type"] == t]] *)
Definition of_type (t : string) (df : list row) : list row :=
  List.filter (λ r, String.eqb (Type_ r) t) df.

(** [column.sum()], in exact arithmetic. *)
Definition sum (column : list Q) : Q := foldl Qplus 0%Q column.

(** [column.sum()] as the machine computes it, on a column of two binary64
    amounts: one rounded addition, in whichever order the two are taken
    (adding the 0 that a sum starts from changes nothing). *)
Definition sum_of_two (a b : PrimFloat.float) : PrimFloat.float :=
  PrimFloat.add a b.

(** [frame.groupby("Category")["Amount"].sum().to_dict()], in exact
    arithmetic and over categories that were read as text. *)
Definition groupby_sum (frame : list row) : gmap string Q :=
  foldl (λ m r, <[Category r := (default 0%Q (m !! Category r) + Amount r)%Q]> m) ∅ frame.

(** [df.tail(n)] *)
Definition tail (n : nat) (df : list row) : list row := drop (length df - n) df.

(** [show_summary] *)
Definition show_summary : io response :=
  df ← read_csv;
  match df with
  | [] =>
      mret (Response true (Some NoRecordsFound) (data (
        <["total_income" := Num 0]> (
        <["total_expense" := Num 0]> (
        <["balance" := Num 0]> (
        <["income_by_category" := Dict ∅]> (
        <["expenses_by_category" := Dict ∅]> (
        <["recent_transactions" := Records []]> ∅))))))))
  | _ =>
      let total_income := sum (Amount <$> of_type "Income" df) in
      let total_expense := sum (Amount <$> of_type "Expense" df) in
      let balance := (total_income - total_expense)%Q in
      let income_by_cat := groupby_sum (of_type "Income" df) in
      let expenses_by_cat := groupby_sum (of_type "Expense" df) in
      let recent_transactions := tail 10 df in
      mret (Response true None (data (
        <["total_income" := Num total_income]> (
        <["total_expense" := Num total_expense]> (
        <["balance" := Num balance]> (
        <["income_by_category" := Dict income_by_cat]> (
        <["expenses_by_category" := Dict expenses_by_cat]> (
        <["recent_transactions" := Records recent_transactions]> (
        <["total_records" := Num (inject_Z (Z.of_nat (length df)))]> ∅)))))))))
  end.

(** [reset_data] *)
Definition reset_data : io response :=
  _ ← to_csv [];
  mret (Response true (Some AllDataReset) nothing).

(** [get_transactions] *)
Definition get_transactions : io response :=
  df ← read_csv;
  mret (Response true None (rows df)).

(** [delete_transaction]. After [read_csv] the index of the frame is
    [0 .. len(df) - 1], so dropping the label [df.index[index]] drops the
    row at that position. [df.iloc[index]] out of range would raise and end
    in the [except] branch; the test before it excludes that. *)
Definition delete_transaction (index : Z) : io response :=
  df ← read_csv;
  if Z.leb 0 index && Z.ltb index (Z.of_nat (length df)) then
    match df !! Z.to_nat index with
    | Some deleted_row =>
        let df := delete (Z.to_nat index) df in
        _ ← to_csv df;
        mret (Response true
                (Some (TransactionDeleted (Amount deleted_row) (Category deleted_row)))
                (deleted_transaction deleted_row))
    | None => mret (Response false (Some ErrorDeleting) nothing)
    end
  else mret (Response false (Some InvalidTransactionIndex) nothing).

End TrackerAgent.

(** ** app.py

    The summary tab of the interface. The request to the server and the
    JSON coding of its answer are taken as handing the response of
    [show_summary] over unchanged, which they do when the server answers
    and the response holds no NaN, as on a [plain_store]; the formatting of the numbers inside the
    summary text is not modelled: a rendered summary carries the numbers
    and the two status strings it prints, and the data of each chart. *)

Module App.

(** [get_status_emoji] *)
Definition get_status_emoji (balance : Q) : string :=
  if negb (Qle_bool balance 1000) then "🟢"
  else if negb (Qle_bool balance 0) then "🟡"
  else "🔴".

(** [get_balance_status] *)
Definition get_balance_status (balance : Q) : string :=
  if negb (Qle_bool balance 1000) then "Great! You're in good financial shape."
  else if negb (Qle_bool balance 0) then "You're doing okay, but watch your spending."
  else "Warning: You're spending more than you earn!".

(** What [get_summary] returns: the summary text with the two charts, each
    [None] or the pie chart of a category map; or the text of the error
    branch, with which both charts are [None]. *)
Inductive summary_view :=
  | Rendered (total_income total_expense balance total_records : Q)
             (status_emoji status_text : string)
             (expense_chart income_chart : option (gmap string Q))
  | Failed (text : string).

(** [data[key]] for a number and for a category map; the error is the text
    of the [KeyError], the key between quotes. *)
Definition number (d : gmap string TrackerAgent.value) (key : string)
  : string + Q :=
  match d !! key with
  | Some (TrackerAgent.Num q) => inr q
  | _ => inl ("'" +:+ key +:+ "'")
  end.

Definition category_map (d : gmap string TrackerAgent.value) (key : string)
  : string + gmap string Q :=
  match d !! key with
  | Some (TrackerAgent.Dict m) => inr m
  | _ => inl ("'" +:+ key +:+ "'")
  end.

(** [pie(...) if m else None] *)
Definition chart (m : gmap string Q) : option (gmap string Q) :=
  if decide (m = ∅) then None else Some m.

(** [get_summary], on the response the server sent. The keys are read in
    the order of the source; the first missing one ends in the last
    [except] branch. *)
Definition get_summary (response : TrackerAgent.response) : summary_view :=
  let error e := Failed ("❌ **Error:** " +:+ e) in
  match TrackerAgent.extra response with
  | TrackerAgent.data d =>
      match number d "total_income" with
      | inl e => error e
      | inr total_income =>
      match number d "total_expense" with
      | inl e => error e
      | inr total_expense =>
      match number d "balance" with
      | inl e => error e
      | inr balance =>
      match number d "total_records" with
      | inl e => error e
      | inr total_records =>
      match category_map d "expenses_by_category" with
      | inl e => error e
      | inr expenses =>
      match category_map d "income_by_category" with
      | inl e => error e
      | inr incomes =>
          Rendered total_income total_expense balance total_records
            (get_status_emoji balance) (get_balance_status balance)
            (chart expenses) (chart incomes)
      end end end end end end
  | _ => error "'data'"
  end.

End App.

(** ** The vocabulary of the properties *)

Import PyStr.

(** [k] occurs in [s]. *)
Definition substring (k s : string) : Prop := ∃ a b, s = a +:+ k +:+ b.

(** Some character of [s] satisfies [P]. *)
Fixpoint any_char (P : ascii → bool) (s : string) : bool :=
  match s with
  | EmptyString => false
  | String c s' => P c || any_char P s'
  end.

(** A word as [split] yields them: not empty, no whitespace inside. *)
Definition token (w : string) : Prop := w ≠ "" ∧ any_char isspace w = false.

(** [s] is made of decimal digits; [s] is made of the digit 0. *)
Definition digits (s : string) : Prop := any_char (λ c, negb (isdigit c)) s = false.
Definition zeros (s : string) : Prop := any_char (λ c, negb (Ascii.eqb c "0")) s = false.

(** No keyword of any bucket of [table] occurs in [s]. *)
Definition no_bucket (table : list (string * list string)) (s : string) : Prop :=
  ∀ cat keywords k, (cat, keywords) ∈ table → k ∈ keywords → ¬ substring k s.

(** The first occurrence of [k] among [words] is its last word, if there is
    an occurrence at all. *)
Definition not_followed (k : string) (words : list string) : Prop :=
  ∀ pre tl, words = pre ++ k :: tl → k ∉ pre → tl = [].

(** The fallback as the specification words it: the tokens after the last
    occurrence of a preposition token. *)
Fixpoint after_last_preposition (tokens : list string) : option (list string) :=
  match tokens with
  | [] => None
  | w :: tokens' =>
      match after_last_preposition tokens' with
      | Some rest => Some rest
      | None => if member w Tools.prepositions then Some tokens' else None
      end
  end.

(** ... joined with spaces, the bare words "the" and "a" stripped out, and
    the result title-cased. *)
Definition spec_preposition_category (tokens : list string) : option string :=
  rest ← after_last_preposition tokens;
  Some (title (join " " (List.filter (λ w, negb (member w ["the"; "a"])) rest))).

(** The first occurrence of [k] among [words] is followed by the words
    [rest], of which there is at least one. *)
Definition followed_by (k : string) (words rest : list string) : Prop :=
  ∃ pre, words = pre ++ k :: rest ∧ (k ∉ pre) ∧ rest ≠ [].

(** A word that the clean-up of line 102 either drops whole or leaves as it
    is: the word "the", the word "a", or a word in which neither the
    letter a nor "the" occurs. *)
Definition article_or_plain (w : string) : Prop :=
  w = "the" ∨ w = "a" ∨ (¬ substring "a" w ∧ ¬ substring "the" w).

Definition drop_article (w : string) : string :=
  if member w ["the"; "a"] then "" else w.

(** What the data model asks of a persisted record. *)
Definition valid_row (r : TrackerAgent.row) : Prop :=
  (0 < TrackerAgent.Amount r)%Q
  ∧ TrackerAgent.Category r ≠ ""
  ∧ (TrackerAgent.Type_ r = "Income" ∨ TrackerAgent.Type_ r = "Expense").

Definition valid_store (file : TrackerAgent.csv) : Prop := Forall valid_row file.

(** The total the specification asks for: the amounts of the records of
    type [t], added up. *)
Fixpoint ledger_total (t : string) (ledger : list TrackerAgent.row) : Q :=
  match ledger with
  | [] => 0
  | r :: ledger' =>
      if decide (TrackerAgent.Type_ r = t)
      then (TrackerAgent.Amount r + ledger_total t ledger')%Q
      else ledger_total t ledger'
  end.

(** Some keyword of [ks] occurs in [s]. *)
Definition mentions (ks : list string) (s : string) : Prop :=
  ∃ k, k ∈ ks ∧ substring k s.

(** [s] from its first digit on; empty when [s] has no digit. *)
Fixpoint from_first_digit (s : string) : string :=
  match s with
  | EmptyString => EmptyString
  | String c s' => if isdigit c then s else from_first_digit s'
  end.

(** The words after the first word that holds a digit. *)
Fixpoint after_first_number (words : list string) : list string :=
  match words with
  | [] => []
  | w :: words' => if has_digit w then words' else after_first_number words'
  end.

(** Neither the letter a nor the letter A occurs in [s]. *)
Definition letter_a_free (s : string) : Prop :=
  any_char (λ c, Ascii.eqb c "a" || Ascii.eqb c "A") s = false.

(** [s] has a character that is not whitespace. *)
Definition nonblank (s : string) : Prop :=
  any_char (λ c, negb (isspace c)) s = true.

(** The amounts of the records of type [t] and category [c], added up,
    and whether there is such a record. *)
Fixpoint category_total (t c : string) (ledger : list TrackerAgent.row) : Q :=
  match ledger with
  | [] => 0
  | r :: ledger' =>
      if decide (TrackerAgent.Type_ r = t ∧ TrackerAgent.Category r = c)
      then (TrackerAgent.Amount r + category_total t c ledger')%Q
      else category_total t c ledger'
  end.

Definition category_seen (t c : string) (ledger : list TrackerAgent.row) : Prop :=
  ∃ r, r ∈ ledger ∧ TrackerAgent.Type_ r = t ∧ TrackerAgent.Category r = c.

(** The amounts of all the records, added up. *)
Fixpoint ledger_sum (ledger : list TrackerAgent.row) : Q :=
  match ledger with
  | [] => 0
  | r :: ledger' => (TrackerAgent.Amount r + ledger_sum ledger')%Q
  end.

(** The number the summary of [file] reports under [key], if it reports
    one. *)
Definition reported (key : string) (file : TrackerAgent.csv) : option Q :=
  match TrackerAgent.extra (TrackerAgent.show_summary file).1 with
  | TrackerAgent.data d =>
      match d !! key with
      | Some (TrackerAgent.Num q) => Some q
      | _ => None
      end
  | _ => None
  end.

(** *** Where the embedding is exact *)

(** Every character of [s] is an ASCII one. *)
Definition ascii_text (s : string) : Prop :=
  any_char (λ c, Nat.leb 128 (code c)) s = false.

(** The words, in lower case, that [pd.read_csv] may take for something
    other than text: a missing value, an infinity or a truth value. *)
Definition reserved_words : list string :=
  ["na"; "n/a"; "nan"; "null"; "none"; "inf"; "infinity"; "true"; "false"].

(** A text cell that [pd.read_csv] gives back as the string that [to_csv]
    wrote, whatever else its column holds: it starts with a letter, it is
    made of printable ASCII characters, and it is not a reserved word in
    any casing. *)
Definition plain_cell (s : string) : Prop :=
  match s with
  | EmptyString => False
  | String c _ => iscased c = true
  end
  ∧ any_char (λ c, negb (between 32 126 c)) s = false
  ∧ member (lower s) reserved_words = false.

(** A date as [strftime('%Y-%m-%d')] prints it: digits where [mask] says
    so, a hyphen elsewhere. *)
Fixpoint date_shape (mask : list bool) (s : string) : bool :=
  match mask, s with
  | [], EmptyString => true
  | d :: mask', String c s' =>
      (if d then isdigit c else Ascii.eqb c "-") && date_shape mask' s'
  | _, _ => false
  end.

Definition date_text (s : string) : Prop :=
  date_shape [true; true; true; true; false; true; true; false; true; true] s
  = true.

(** An amount of at most fifteen digits, two of them after the point: the
    numeral that [to_csv] prints for it is read back as the same number. *)
Definition short_amount (a : Q) : Prop :=
  ∃ n : Z, (0 ≤ n < 10 ^ 15)%Z ∧ (a == n # 100)%Q.

(** A row, and a store, that [pd.read_csv] gives back as written. *)
Definition plain_row (r : TrackerAgent.row) : Prop :=
  short_amount (TrackerAgent.Amount r)
  ∧ plain_cell (TrackerAgent.Category r)
  ∧ plain_cell (TrackerAgent.Type_ r)
  ∧ date_text (TrackerAgent.Date r).

Definition plain_store (file : TrackerAgent.csv) : Prop := Forall plain_row file.

(** A store whose amounts are whole numbers that add up to less than
    10^13: every sum of some of them, in any order, is exact in binary64
    arithmetic. *)
Definition whole_amount (a : Q) : Prop :=
  ∃ n : Z, (0 ≤ n)%Z ∧ (a == inject_Z n)%Q.

Definition whole_amounts (file : TrackerAgent.csv) : Prop :=
  Forall (λ r, whole_amount (TrackerAgent.Amount r)) file
  ∧ (ledger_sum file < inject_Z (10 ^ 13))%Q.

(** ** Facts about the string primitives *)

Section StringFacts.
Import PyStr.

Lemma startswith_spec p s : startswith p s = true ↔ ∃ b, s = p +:+ b.
Proof.
  revert s. induction p as [|a p IH]; intros s; simpl.
  - split; eauto.
  - destruct s as [|b s].
    + split; [done | intros [? ?]; done].
    + destruct (Ascii.eqb_spec a b) as [->|Hne].
      * rewrite IH. split; intros [r Hr]; exists r; simpl in *; congruence.
      * split; [done | intros [r Hr]; simpl in Hr; congruence].
Qed.

Lemma contains_spec k s : contains k s = true ↔ substring k s.
Proof.
  induction s as [|c s IH].
  - simpl. rewrite orb_false_r, startswith_spec. split.
    + intros [b ->]. by exists "", b.
    + intros [a [b H]]. destruct a; [by exists b|done].
  - cbn [contains]. rewrite orb_true_iff, IH, startswith_spec. split.
    + intros [[b ->]|[a [b ->]]]; [by exists "", b | by exists (String c a), b].
    + intros [[|c' a] [b H]]; [left; by exists b|].
      right. exists a, b. simpl in H. congruence.
Qed.

Lemma any_in_spec ks s :
  any_in ks s = true ↔ ∃ k, k ∈ ks ∧ substring k s.
Proof.
  unfold any_in. rewrite existsb_exists. split.
  - intros [k [Hin Hk]]. exists k. by rewrite list_elem_of_In, <- contains_spec.
  - intros [k [Hin Hk]]. exists k. by rewrite <- list_elem_of_In, contains_spec.
Qed.

Lemma title_from_nonempty b s : s ≠ "" → title_from b s ≠ "".
Proof. destruct s as [|c s]; [done|]. simpl. by destruct (iscased c). Qed.

Lemma title_nonempty s : s ≠ "" → title s ≠ "".
Proof. apply title_from_nonempty. Qed.

Lemma member_spec k l : member k l = true ↔ k ∈ l.
Proof.
  unfold member. rewrite existsb_exists, (list_elem_of_In l k). split.
  - intros [x [Hin Heq]]. by apply String.eqb_eq in Heq as ->.
  - intros Hin. exists k. by rewrite String.eqb_refl.
Qed.

(** [l.index(k)] finds the first occurrence of [k]. *)
Lemma index_first (k : string) (pre tl : list string) : k ∉ pre → index k (pre ++ k :: tl) = Some (length pre).
Proof.
  induction pre as [|x pre IH]; intros Hnot; simpl.
  - by rewrite String.eqb_refl.
  - apply not_elem_of_cons in Hnot as [Hne Hnot].
    destruct (String.eqb_spec k x) as [->|_]; [done|]. by rewrite IH.
Qed.

Lemma first_occurrence (k : string) (l : list string) :
  k ∈ l → ∃ pre tl, l = pre ++ k :: tl ∧ k ∉ pre.
Proof.
  induction l as [|x l IH]; intros Hin; [by apply elem_of_nil in Hin|].
  destruct (decide (k = x)) as [->|Hne].
  - exists [], l. split; [done|]. apply not_elem_of_nil.
  - apply elem_of_cons in Hin as [?|Hin]; [done|].
    destruct (IH Hin) as (pre & tl & -> & Hnot).
    exists (x :: pre), tl. split; [done|]. by apply not_elem_of_cons.
Qed.

Lemma any_char_app P a b : any_char P (a +:+ b) = any_char P a || any_char P b.
Proof. induction a as [|c a IH]; simpl; [done|]. by rewrite IH, orb_assoc. Qed.

Lemma split_from_tokens cur s :
  any_char isspace cur = false → Forall token (split_from cur s).
Proof.
  revert cur. induction s as [|c s IH]; intros cur Hcur; simpl.
  - destruct cur; repeat constructor; done.
  - destruct (isspace c) eqn:Hc.
    + destruct cur; [by apply IH|]. constructor; [done|by apply IH].
    + apply IH. rewrite any_char_app. simpl. by rewrite Hcur, Hc.
Qed.

Lemma split_tokens s : Forall token (split s).
Proof. by apply split_from_tokens. Qed.

Lemma join_cons2 sep x y l : join sep (x :: y :: l) = x +:+ sep +:+ join sep (y :: l).
Proof. done. Qed.

Lemma append_empty a b : a +:+ b = "" → b = "".
Proof. by destruct a. Qed.

Lemma rstrip_token w : any_char isspace w = false → rstrip w = w.
Proof.
  induction w as [|c w IH]; simpl; [done|].
  intros [Hc Hw]%orb_false_iff. rewrite IH, Hc by done. by destruct w.
Qed.

Lemma rstrip_app a r : rstrip r = r → r ≠ "" → rstrip (a +:+ r) = a +:+ r.
Proof.
  intros Hr Hne. induction a as [|c a IH]; simpl; [done|].
  rewrite IH. destruct (a +:+ r) eqn:Har; [|done].
  by apply append_empty in Har.
Qed.

Lemma join_tokens_nonempty l : Forall token l → l ≠ [] → join " " l ≠ "".
Proof.
  intros Hl Hne. destruct Hl as [|x l [Hx _] Hl]; [done|].
  destruct l; [done|]. rewrite join_cons2. by destruct x.
Qed.

(** Joining words with spaces leaves nothing for [strip] to remove. *)
Lemma strip_join_tokens l : Forall token l → strip (join " " l) = join " " l.
Proof.
  intros Hl. unfold strip.
  assert (lstrip (join " " l) = join " " l) as ->.
  { destruct Hl as [|x l [Hx Hs] Hl]; [done|].
    destruct x as [|c x]; [done|]. simpl in Hs. apply orb_false_iff in Hs as [Hc _].
    destruct l; simpl; by rewrite Hc. }
  induction Hl as [|x l [Hx Hs] Hl IH]; [done|].
  destruct l as [|y l]; [by apply rstrip_token|].
  rewrite join_cons2. apply rstrip_app.
  - change (" " +:+ join " " (y :: l)) with (String " " (join " " (y :: l))).
    cbn [rstrip]. rewrite IH.
    destruct (join " " (y :: l)) eqn:Hj; [|done].
    by destruct (join_tokens_nonempty (y :: l)).
  - done.
Qed.

Lemma startswith_length p s : startswith p s = true → String.length p ≤ String.length s.
Proof.
  revert s. induction p as [|a p IH]; intros [|b s]; simpl; try done; [lia|].
  destruct (Ascii.eqb a b); [|done]. intros H%IH. lia.
Qed.

Lemma startswith_before_space old a b :
  any_char isspace old = false →
  startswith old (a +:+ String " " b) = startswith old a.
Proof.
  revert a. induction old as [|o old IH]; intros a Hold; [by destruct a|].
  simpl in Hold. apply orb_false_iff in Hold as [Ho Hold].
  destruct a as [|c a]; simpl.
  - destruct (Ascii.eqb_spec o " ") as [->|]; done.
  - by rewrite IH.
Qed.

(** An occurrence of a spaceless [old] does not reach over a space. *)
Lemma remove_from_before_space old skip a b :
  old ≠ "" → any_char isspace old = false → skip ≤ String.length a →
  remove_from old skip (a +:+ String " " b)
  = remove_from old skip a +:+ String " " (remove_from old 0 b).
Proof.
  intros Hne Hold. revert skip. induction a as [|c a IH]; intros skip Hskip.
  - simpl in Hskip. replace skip with 0 by lia.
    change ("" +:+ String " " b) with (String " " b).
    cbn [remove_from]. pose proof (startswith_before_space old "" b Hold) as Hsw.
    change ("" +:+ String " " b) with (String " " b) in Hsw. rewrite Hsw.
    by destruct old.
  - change (String c a +:+ String " " b) with (String c (a +:+ String " " b)).
    cbn [remove_from]. destruct skip as [|k].
    + pose proof (startswith_before_space old (String c a) b Hold) as Hsw.
      change (String c a +:+ String " " b) with (String c (a +:+ String " " b)) in Hsw.
      rewrite Hsw. destruct (startswith old (String c a)) eqn:Hs.
      * apply IH. apply startswith_length in Hs. simpl in Hs. lia.
      * simpl. f_equal. apply IH. lia.
    + apply IH. simpl in Hskip. lia.
Qed.

Lemma remove_join old l :
  old ≠ "" → any_char isspace old = false →
  remove old (join " " l) = join " " (remove old <$> l).
Proof.
  intros Hne Hold. induction l as [|x l IH]; [done|].
  destruct l as [|y l]; [done|].
  rewrite join_cons2. change (" " +:+ join " " (y :: l)) with (String " " (join " " (y :: l))).
  unfold remove in *. rewrite remove_from_before_space by (done || lia).
  by rewrite IH.
Qed.

Lemma remove_absent old s : contains old s = false → remove old s = s.
Proof.
  unfold remove. induction s as [|c s IH]; [done|].
  cbn [contains remove_from]. intros [Hsw Hc]%orb_false_iff.
  by rewrite Hsw, IH.
Qed.

End StringFacts.

(** ** The extractor *)

Section Extractor.
Import PyStr Tools.

Lemma expense_category_nonempty text_lower words :
  extract_category_for_expense text_lower words ≠ "".
Proof.
  unfold extract_category_for_expense.
  repeat match goal with |- context [match ?x with _ => _ end] => destruct x end;
    try done; by apply title_nonempty.
Qed.

Lemma income_category_nonempty text_lower words :
  extract_category_for_income text_lower words ≠ "".
Proof.
  unfold extract_category_for_income.
  repeat match goal with |- context [match ?x with _ => _ end] => destruct x end;
    try done; by apply title_nonempty.
Qed.

(** The amount is the value of the first match, whatever the type. *)
Lemma extract_amount text :
  Amount (extract_expense_info text) = float <$> re_search (lower text).
Proof.
  unfold extract_expense_info.
  repeat match goal with |- context [if ?x then _ else _] => destruct x end; done.
Qed.

Lemma extraction_amount_value text a :
  Amount (extract_expense_info text) = Some a →
  ∃ g, re_search (lower text) = Some g ∧ a = float g.
Proof.
  rewrite extract_amount. destruct (re_search (lower text)) as [g|]; [|done].
  intros [= <-]. by exists g.
Qed.

Lemma extraction_category_nonempty text c :
  Category (extract_expense_info text) = Some c → c ≠ "".
Proof.
  unfold extract_expense_info.
  repeat match goal with |- context [if ?x then _ else _] => destruct x end;
    simpl; intros [= <-];
    auto using expense_category_nonempty, income_category_nonempty.
Qed.

(** The type is decided by the keyword lists, expense first. *)
Lemma extract_type_expense text :
  any_in expense_keywords (lower text) = true →
  Type_ (extract_expense_info text) = Some "Expense"
  ∧ Category (extract_expense_info text)
    = Some (extract_category_for_expense (lower text) (split (lower text))).
Proof. intros H. unfold extract_expense_info. by rewrite H. Qed.

Lemma extract_type_income text :
  any_in expense_keywords (lower text) = false →
  any_in income_keywords (lower text) = true →
  Type_ (extract_expense_info text) = Some "Income"
  ∧ Category (extract_expense_info text)
    = Some (extract_category_for_income (lower text) (split (lower text))).
Proof. intros H1 H2. unfold extract_expense_info. by rewrite H1, H2. Qed.

Lemma digits_value_nonneg s acc : (0 ≤ acc)%Z → (0 ≤ digits_value acc s)%Z.
Proof.
  revert acc. induction s as [|c s IH]; intros acc Hacc; simpl; [done|].
  apply IH. unfold digit_value. lia.
Qed.

Lemma float_nonneg g : (0 <= float g)%Q.
Proof.
  destruct g as [ds fs]. unfold float, Qle. simpl.
  rewrite Z.mul_1_r. by apply digits_value_nonneg.
Qed.

(** The group of a match is made of digits. *)
Lemma take_digits_digits n s : digits (take_digits n s).1.
Proof.
  revert s. induction n as [|n IH]; intros [|c s]; simpl; try done.
  destruct (isdigit c) eqn:Hc; [|done].
  specialize (IH s). destruct (take_digits n s) as [ds rest]. simpl in *.
  unfold digits in *. simpl. by rewrite Hc, IH.
Qed.

Lemma match_number_digits s ds fs :
  match_number s = Some (ds, fs) → digits ds ∧ digits fs.
Proof.
  unfold match_number.
  pose proof (take_digits_digits (String.length s) s) as Hds.
  destruct (take_digits (String.length s) s) as [[|d ds'] rest]; [done|].
  simpl in Hds.
  assert (Some (String d ds', "") = Some (ds, fs) → digits ds ∧ digits fs) as Hplain.
  { by intros [= <- <-]. }
  destruct rest as [|c rest]; [exact Hplain|].
  destruct c as [[] [] [] [] [] [] [] []]; try exact Hplain.
  pose proof (take_digits_digits 2 rest) as Hfs.
  destruct (take_digits 2 rest) as [fs' ?]. by intros [= <- <-].
Qed.

Lemma re_search_digits s ds fs :
  re_search s = Some (ds, fs) → digits ds ∧ digits fs.
Proof.
  assert (∀ t, match_here t = Some (ds, fs) → digits ds ∧ digits fs) as Hhere.
  { intros t. unfold match_here. generalize currency_markers.
    induction l as [|m ms IH]; [done|].
    destruct (strip_prefix m t) as [t'|]; simpl; [|done].
    unfold match_spaces_number.
    destruct (match_number (lstrip t')) as [g|] eqn:Hg; [|done].
    intros [= ->]. by eapply match_number_digits. }
  induction s as [|c s IH]; cbn [re_search].
  - destruct (match_here "") eqn:Hm; [|done]. intros [= ->]. by eapply Hhere.
  - destruct (match_here (String c s)) eqn:Hm; [|done]. intros [= ->]. by eapply Hhere.
Qed.

Lemma digit_value_zero c :
  isdigit c = true → digit_value c = 0%Z ↔ Ascii.eqb c "0" = true.
Proof.
  destruct c as [[] [] [] [] [] [] [] []]; vm_compute; try done; intros _; by split.
Qed.

Lemma digits_value_zero s acc :
  digits s → (0 ≤ acc)%Z → digits_value acc s = 0%Z ↔ acc = 0%Z ∧ zeros s.
Proof.
  unfold digits, zeros. revert acc. induction s as [|c s IH]; intros acc Hs Hacc; simpl.
  - by split; [|intros [? _]].
  - simpl in Hs. apply orb_false_iff in Hs as [Hc%negb_false_iff Hs].
    assert (0 ≤ digit_value c)%Z as Hd by (unfold digit_value; lia).
    rewrite IH by (done || lia). rewrite orb_false_iff, negb_false_iff.
    rewrite <- (digit_value_zero c Hc). split.
    + intros [Hsum Hz]. repeat split; [lia|lia|done].
    + intros (-> & Hz & Hzs). split; [lia|done].
Qed.

Lemma float_zero ds fs :
  digits ds → digits fs → (float (ds, fs) == 0)%Q ↔ zeros (ds +:+ fs).
Proof.
  intros Hds Hfs. unfold float, Qeq. simpl. rewrite Z.mul_1_r.
  rewrite digits_value_zero; [by split; [intros [_ ?]|] | | done].
  unfold digits in *. by rewrite any_char_app, Hds, Hfs.
Qed.

(** What [validate_transaction_data] accepts. *)
Lemma validate_transaction_data_sound amount category transaction_type :
  validate_transaction_data amount category transaction_type = true →
  ∃ a c t, amount = Some a ∧ category = Some c ∧ transaction_type = Some t
    ∧ (0 < a)%Q ∧ strip c ≠ "" ∧ (t = "Income" ∨ t = "Expense").
Proof.
  unfold validate_transaction_data.
  destruct amount as [a|]; [|done]. simpl.
  destruct (Qeq_bool a 0); [done|]. simpl.
  destruct (Qle_bool a 0) eqn:Hle; [done|].
  destruct category as [[|x c]|]; try done. cbn [truthy negb orb].
  destruct (strip (String x c)) eqn:Hstrip; [done|]. simpl.
  destruct transaction_type as [t|]; [|done].
  intros Ht. exists a, (String x c), t. rewrite Hstrip.
  repeat split; try done.
  - apply Qnot_le_lt. intros Hq%Qle_bool_iff. congruence.
  - apply orb_true_iff in Ht as [->%String.eqb_eq|Ht]; [by left|].
    apply orb_true_iff in Ht as [->%String.eqb_eq|Ht]; [by right|done].
Qed.

(** C3. Type classification checks the expense keywords before the income
    keywords: a text whose lower-cased form contains both an expense keyword
    and an income keyword as substrings is classified as an expense. *)
Theorem expense_keywords_win text :
  (∃ k, k ∈ expense_keywords ∧ substring k (lower text)) →
  (∃ k, k ∈ income_keywords ∧ substring k (lower text)) →
  Type_ (extract_expense_info text) = Some "Expense".
Proof.
  intros He _. apply any_in_spec in He. by apply extract_type_expense.
Qed.

Lemma expense_keywords_win_witness :
  Type_ (extract_expense_info "Got 100 and spent 50") = Some "Expense".
Proof.
  apply expense_keywords_win.
  - exists "spent". split; [set_solver|]. by exists "got 100 and ", " 50".
  - exists "got". split; [set_solver|]. by exists "", " 100 and spent 50".
Defined.

(** C10. Whenever the extractor returns a type it returns a category that
    is neither null nor empty, whether or not an amount was found. *)
Theorem typed_extraction_has_category text ty :
  Type_ (extract_expense_info text) = Some ty →
  ∃ c, Category (extract_expense_info text) = Some c ∧ c ≠ "".
Proof.
  unfold extract_expense_info.
  repeat match goal with |- context [if ?x then _ else _] => destruct x end;
    simpl; intros H; try done;
    eauto using expense_category_nonempty, income_category_nonempty.
Qed.

Lemma typed_extraction_has_category_witness :
  Amount (extract_expense_info "paid the plumber") = None
  ∧ ∃ c, Category (extract_expense_info "paid the plumber") = Some c ∧ c ≠ "".
Proof.
  split; [reflexivity|].
  apply (typed_extraction_has_category "paid the plumber" "Expense"). reflexivity.
Defined.

(** C4, as the specification states it, fails: the amount pattern matches
    the numeral [0], whose value is not positive. *)
Lemma amount_zero_extracted :
  ∃ a, Amount (extract_expense_info "spent 0 on x") = Some a ∧ ¬ (0 < a)%Q.
Proof. exists 0%Q. split; [reflexivity|]. apply Qlt_irrefl. Qed.

(** C4, amended. An extracted amount is never negative, and it is 0
    exactly when the numeral that the pattern matched, its integer digits
    [ds] and its fraction digits [fs], is written with the digit 0 only. *)
Theorem extracted_amount_nonneg text a :
  Amount (extract_expense_info text) = Some a →
  (0 <= a)%Q
  ∧ ∃ ds fs, re_search (lower text) = Some (ds, fs)
      ∧ ((a == 0)%Q ↔ zeros (ds +:+ fs)).
Proof.
  intros ([ds fs] & Hg & ->)%extraction_amount_value.
  split; [apply float_nonneg|]. exists ds, fs. split; [done|].
  apply re_search_digits in Hg as [Hds Hfs]. by apply float_zero.
Qed.

Lemma extracted_amount_nonneg_witness :
  Amount (extract_expense_info "spent rs. 12.50 on stuff") = Some (1250 # 100)
  ∧ (0 <= 1250 # 100)%Q
  ∧ ∃ ds fs, re_search (lower "spent rs. 12.50 on stuff") = Some (ds, fs)
      ∧ ((1250 # 100 == 0)%Q ↔ zeros (ds +:+ fs)).
Proof.
  split; [reflexivity|].
  apply (extracted_amount_nonneg "spent rs. 12.50 on stuff"). reflexivity.
Defined.

Lemma first_bucket_none table s :
  first_bucket table s = None ↔ no_bucket table s.
Proof.
  unfold no_bucket. induction table as [|[cat kws] table IH]; simpl.
  - split; [|done]. intros _ ??? Hin. by apply elem_of_nil in Hin.
  - destruct (any_in kws s) eqn:Hany.
    + split; [done|]. intros H. apply any_in_spec in Hany as (k & Hk & Hsub).
      destruct (H cat kws k); [left|..]; done.
    + rewrite IH. split.
      * intros H c ks k Hin Hk Hsub.
        apply elem_of_cons in Hin as [Heq|Hin]; [|by eapply H].
        injection Heq as -> ->.
        assert (any_in kws s = true) as Ht by (apply any_in_spec; eauto).
        congruence.
      * intros H c ks k Hin. apply (H c ks k). by right.
Qed.

(** C2, as the specification states it, fails: a text with an income
    keyword and an amount is an expense when it has an expense keyword too. *)
Lemma income_keyword_yet_expense :
  let text := "got 100 and spent 50" in
  (∃ k, k ∈ income_keywords ∧ substring k (lower text))
  ∧ Amount (extract_expense_info text) = Some (100 # 1)
  ∧ Type_ (extract_expense_info text) ≠ Some "Income".
Proof.
  simpl. split; [|split; [reflexivity|by vm_compute]].
  exists "got". split; [set_solver|]. by exists "", " 100 and spent 50".
Qed.

(** C2, amended. A text whose lower-cased form contains an income keyword
    and no expense keyword, and in which an amount is found, is classified
    as income with a category that is neither null nor empty; the category
    is "Other Income" when no source bucket matches and no word follows the
    first "from". *)
Theorem income_keyword_without_expense_keyword text :
  (∃ k, k ∈ income_keywords ∧ substring k (lower text)) →
  (∀ k, k ∈ expense_keywords → ¬ substring k (lower text)) →
  is_Some (Amount (extract_expense_info text)) →
  Type_ (extract_expense_info text) = Some "Income"
  ∧ ∃ c, Category (extract_expense_info text) = Some c ∧ c ≠ ""
    ∧ (no_bucket income_sources (lower text) →
       not_followed "from" (split (lower text)) →
       c = "Other Income").
Proof.
  intros Hi He _. apply any_in_spec in Hi.
  assert (any_in expense_keywords (lower text) = false) as Hne.
  { apply not_true_is_false. intros (k & Hk & Hs)%any_in_spec. by eapply He. }
  destruct (extract_type_income text Hne Hi) as [-> ->]. split; [done|].
  eexists. split; [done|]. split; [apply income_category_nonempty|].
  intros Hnb%first_bucket_none Hfrom.
  unfold extract_category_for_income. rewrite Hnb. simpl.
  destruct (member "from" (split (lower text))) eqn:Hm; [|done].
  apply member_spec, first_occurrence in Hm as (pre & tl & Hw & Hpre).
  rewrite (Hfrom pre tl Hw Hpre) in Hw. rewrite Hw, index_first by done.
  rewrite length_app. simpl. by rewrite Nat.ltb_irrefl.
Qed.

Lemma income_keyword_without_expense_keyword_witness :
  Type_ (extract_expense_info "Got 100 today") = Some "Income"
  ∧ ∃ c, Category (extract_expense_info "Got 100 today") = Some c ∧ c ≠ ""
    ∧ (no_bucket income_sources (lower "Got 100 today") →
       not_followed "from" (split (lower "Got 100 today")) →
       c = "Other Income").
Proof.
  apply income_keyword_without_expense_keyword.
  - exists "got". split; [set_solver|]. by exists "", " 100 today".
  - intros k Hk Hs%contains_spec. revert Hs.
    repeat (apply elem_of_cons in Hk as [->|Hk]; [by vm_compute|]).
    by apply elem_of_nil in Hk.
  - by eexists.
Defined.

(** *** The preposition fallback *)

(** C1, as the specification states it, fails: the code takes the tokens
    after the first occurrence of the first preposition, in the order on,
    for, to, at, that occurs. *)
Lemma category_not_after_last_preposition :
  let text := "spent 100 on stuff for joe" in
  Type_ (extract_expense_info text) = Some "Expense"
  ∧ first_bucket category_keywords (lower text) = None
  ∧ spec_preposition_category (split (lower text)) = Some "Joe"
  ∧ Category (extract_expense_info text) = Some "Stuff For Joe".
Proof. repeat split. Qed.

(** The clean-up of line 102 works on substrings: it removes every "the"
    and every letter a, inside words too. *)
Example clean_up_inside_words :
  Category (extract_expense_info "spent 100 on candy") = Some "Cndy"
  ∧ Category (extract_expense_info "spent 100 on other things") = Some "Or Things".
Proof. split; reflexivity. Qed.

Lemma clean_word w : article_or_plain w → remove "a" (remove "the" w) = drop_article w.
Proof.
  intros [->|[->|[Ha Hthe]]]; [done..|].
  rewrite <- contains_spec in Ha, Hthe.
  apply not_true_is_false in Ha, Hthe.
  rewrite (remove_absent "the"), (remove_absent "a") by done.
  unfold drop_article. destruct (member w ["the"; "a"]) eqn:Hm; [|done].
  apply member_spec in Hm.
  apply elem_of_cons in Hm as [->|Hm]; [done|].
  apply elem_of_cons in Hm as [->|Hm]; [done|]. by apply elem_of_nil in Hm.
Qed.

Lemma clean_up_join rest :
  Forall token rest → Forall article_or_plain rest →
  clean_up (strip (join " " rest)) = strip (join " " (drop_article <$> rest)).
Proof.
  intros Htok Hplain. unfold clean_up.
  rewrite strip_join_tokens, !remove_join by done.
  do 2 f_equal. rewrite <- list_fmap_compose.
  apply Forall_fmap_ext_1. eapply Forall_impl; [done|].
  intros w Hw. by apply clean_word.
Qed.

Lemma preposition_skipped k keywords words :
  (∀ rest, ¬ followed_by k words rest) →
  preposition_loop (k :: keywords) words = preposition_loop keywords words.
Proof.
  intros Hnot. cbn [preposition_loop].
  destruct (member k words) eqn:Hm; [|done].
  apply member_spec, first_occurrence in Hm as (pre & rest & Hw & Hpre).
  subst words. rewrite index_first by done.
  destruct rest as [|w rest].
  - rewrite length_app. simpl. by rewrite Nat.ltb_irrefl.
  - destruct (Hnot (w :: rest)). by exists pre.
Qed.

Lemma preposition_taken k keywords words rest :
  followed_by k words rest →
  preposition_loop (k :: keywords) words = Some (clean_up (strip (join " " rest))).
Proof.
  intros (pre & Hw & Hpre & Hafter). cbn [preposition_loop].
  assert (member k words = true) as ->.
  { apply member_spec. rewrite Hw. set_solver. }
  rewrite Hw, index_first by done.
  assert (Nat.ltb (length pre + 1) (length (pre ++ k :: rest)) = true) as ->.
  { apply Nat.ltb_lt. rewrite length_app. destruct rest; [done|simpl; lia]. }
  by rewrite drop_app_add.
Qed.

Lemma expense_category_of_expense text :
  Type_ (extract_expense_info text) = Some "Expense" →
  Category (extract_expense_info text)
  = Some (extract_category_for_expense (lower text) (split (lower text))).
Proof.
  unfold extract_expense_info.
  repeat match goal with |- context [if ?x then _ else _] => destruct x end;
    simpl; done.
Qed.

(** C1, amended. For a text classified as an expense in which no bucket
    keyword occurs, let [k] be the first preposition, in the order on, for,
    to, at, whose first occurrence as a word is followed by at least one
    word, and let [rest] be the words that follow that first occurrence.
    If each of them is the word "the", the word "a", or a word containing
    neither the letter a nor "the", the category is the title-cased text
    obtained by joining them with spaces, the words "the" and "a" emptied,
    and stripping the ends, provided that text is not empty. *)
Theorem category_after_first_preposition text earlier k later rest :
  Type_ (extract_expense_info text) = Some "Expense" →
  no_bucket category_keywords (lower text) →
  prepositions = earlier ++ k :: later →
  (∀ k', k' ∈ earlier → ∀ rest', ¬ followed_by k' (split (lower text)) rest') →
  followed_by k (split (lower text)) rest →
  Forall article_or_plain rest →
  let cleaned := strip (join " " (drop_article <$> rest)) in
  cleaned ≠ "" →
  Category (extract_expense_info text) = Some (title cleaned).
Proof.
  intros Hty Hnb%first_bucket_none Hk Hearlier Hfollowed Hplain cleaned Hne.
  rewrite expense_category_of_expense by done. f_equal.
  unfold extract_category_for_expense. rewrite Hnb, Hk. simpl negb. cbv iota.
  assert (preposition_loop (earlier ++ k :: later) (split (lower text)) = Some cleaned)
    as ->.
  { clear Hk. induction earlier as [|k' earlier IH]; simpl app.
    - rewrite (preposition_taken k later _ rest) by done. f_equal.
      destruct Hfollowed as (pre & Hw & _ & _).
      apply clean_up_join; [|done].
      pose proof (split_tokens (lower text)) as Htok. rewrite Hw in Htok.
      apply Forall_app in Htok as [_ Htok]. by inversion Htok.
    - rewrite preposition_skipped by (apply Hearlier; left).
      apply IH. intros k'' Hin. apply Hearlier. by right. }
  destruct cleaned; done.
Qed.

Lemma category_after_first_preposition_witness :
  Category (extract_expense_info "Paid 20 to Bob for the big dog") = Some "Big Dog".
Proof.
  apply (category_after_first_preposition
           "Paid 20 to Bob for the big dog" ["on"] "for" ["to"; "at"]
           ["the"; "big"; "dog"]).
  - reflexivity.
  - by apply first_bucket_none.
  - reflexivity.
  - intros k' ->%list_elem_of_singleton rest' (pre & Hw & _).
    assert ("on" ∈ split (lower "Paid 20 to Bob for the big dog")) as Hin.
    { rewrite Hw. set_solver. }
    apply member_spec in Hin. by vm_compute in Hin.
  - exists ["paid"; "20"; "to"; "bob"]. split; [reflexivity|]. split; [|done].
    intros Hin%member_spec. by vm_compute in Hin.
  - apply Forall_cons. split; [by left|].
    apply Forall_cons. split; [right; right; rewrite <- !contains_spec; by vm_compute|].
    apply Forall_cons. split; [right; right; rewrite <- !contains_spec; by vm_compute|].
    by apply Forall_nil.
  - by vm_compute.
Defined.

End Extractor.

(** ** The ledger store *)

Section Ledger.
Import PyStr Tools TrackerAgent.

Lemma extract_type_values text t :
  Tools.Type_ (extract_expense_info text) = Some t → t = "Expense" ∨ t = "Income".
Proof.
  unfold extract_expense_info.
  repeat match goal with |- context [if ?x then _ else _] => destruct x end;
    simpl; intros [= <-]; auto.
Qed.

(** The two ways [save_transaction] ends. *)
Lemma save_transaction_cases today text file :
  let d := extract_expense_info text in
  (∃ a c t, d = Info (Some a) (Some c) (Some t) ∧ ¬ (a == 0)%Q ∧ c ≠ "" ∧
     save_transaction today text file
     = (Response true (Some (Saved a c t)) (transaction (Row a (title c) t today)),
        file ++ [Row a (title c) t today]))
  ∨ (truthy_amount (Tools.Amount d) && truthy (Tools.Category d) && truthy (Tools.Type_ d) = false
     ∧ save_transaction today text file
       = (Response false (Some CouldNotUnderstand) (extracted d), file)).
Proof.
  intros d. unfold save_transaction. fold d.
  destruct (truthy_amount (Tools.Amount d) && truthy (Tools.Category d)
            && truthy (Tools.Type_ d)) eqn:Hguard; [left|right; done].
  apply andb_true_iff in Hguard as [[Ha Hc]%andb_true_iff Ht].
  destruct d as [[a|] [[|x c]|] [t|]]; simpl in *; try done.
  exists a, (String x c), t. repeat split; [|done].
  intros Hz%Qeq_bool_iff. by rewrite Hz in Ha.
Qed.

(** C5. Deleting at a position fails, with a response and not a fault,
    exactly when the position is negative or not below the number of stored
    records; a failed deletion leaves the stored sequence as it was. *)
Theorem delete_out_of_range index file :
  let result := delete_transaction index file in
  (success result.1 = false ↔ (index < 0 ∨ Z.of_nat (length file) ≤ index)%Z)
  ∧ (success result.1 = false →
     result = (Response false (Some InvalidTransactionIndex) nothing, file)).
Proof.
  unfold delete_transaction, mbind, io_bind, read_csv. simpl.
  destruct (Z.leb_spec 0 index) as [Hlo|Hlo]; simpl.
  - destruct (Z.ltb_spec index (Z.of_nat (length file))) as [Hhi|Hhi].
    + destruct (lookup_lt_is_Some_2 file (Z.to_nat index)) as [r ->]; [lia|].
      simpl. split; [split; [done|lia] | done].
    + simpl. split; [split; [lia|done] | done].
  - split; [split; [lia|done] | done].
Qed.

(** C6, on the code at the input where the invariant is lost. The text
    "spent 5 n/a" passes the guard of [save_transaction]: on the store
    created on import the record is written, with the category cell [N/A].
    That cell is not a plain one: it is among the words that [pd.read_csv]
    takes for a missing value, so every operation that reads the store
    finds a record without a category, and the next [save_transaction] or
    [delete_transaction] writes it back with an empty category. *)
Theorem missing_value_category_persisted today :
  extract_expense_info "spent 5 n/a" = Info (Some 5%Q) (Some "N/A") (Some "Expense")
  ∧ save_transaction today "spent 5 n/a" initial
    = (Response true (Some (Saved 5 "N/A" "Expense"))
         (transaction (Row 5 "N/A" "Expense" today)),
       [Row 5 "N/A" "Expense" today])
  ∧ ¬ plain_cell "N/A".
Proof.
  split; [reflexivity|]. split; [reflexivity|].
  intros (_ & _ & Hword). by vm_compute in Hword.
Qed.

Lemma foldl_Qplus acc column : (foldl Qplus acc column == acc + foldl Qplus 0 column)%Q.
Proof.
  revert acc. induction column as [|q column IH]; intros acc; simpl.
  - by rewrite Qplus_0_r.
  - rewrite (IH (acc + q)%Q), (IH (0 + q)%Q). ring.
Qed.

Lemma sum_of_type t df :
  (sum (TrackerAgent.Amount <$> of_type t df) == ledger_total t df)%Q.
Proof.
  unfold sum. induction df as [|r df IH]; simpl; [done|].
  destruct (String.eqb_spec (TrackerAgent.Type_ r) t) as [Heq|Hne].
  - rewrite decide_True by done. simpl.
    rewrite foldl_Qplus, IH. ring.
  - by rewrite decide_False.
Qed.

(** Reading a key of a dict literal. *)
Ltac read_key :=
  repeat (rewrite lookup_insert_ne by done); rewrite lookup_insert_eq.

(** C7, as the specification states it, fails: the machine adds binary64
    numbers and rounds. On two income records of 0.1 and 0.2 the total
    income that [sum()] computes is not the sum of the two amounts. *)
Lemma total_income_is_rounded :
  let a := Binary64.one_tenth in
  let b := Binary64.two_tenths in
  let ledger := [Row (Binary64.value a) "Gift" "Income" "2024-01-01";
                 Row (Binary64.value b) "Gift" "Income" "2024-01-02"] in
  ¬ (Binary64.value (sum_of_two a b) == ledger_total "Income" ledger)%Q.
Proof. by vm_compute. Qed.

(** C7, amended. For a store of whole-number amounts that add up to less
    than 10^13, the summary reports as total income the sum of the amounts
    of the income records, as total expense the sum of the amounts of the
    expense records (each 0 when there is none) and as balance their
    difference; on the records 100 Expense, 50 Expense, 200 Income it
    reports 150, 200 and 50. *)
Theorem summary_totals file :
  whole_amounts file →
  (∃ d total_income total_expense balance,
     show_summary file = (Response true (msg (show_summary file).1) (data d), file)
     ∧ d !! "total_income" = Some (Num total_income)
     ∧ d !! "total_expense" = Some (Num total_expense)
     ∧ d !! "balance" = Some (Num balance)
     ∧ (total_income == ledger_total "Income" file)%Q
     ∧ (total_expense == ledger_total "Expense" file)%Q
     ∧ (balance == total_income - total_expense)%Q)
  ∧ (∀ c1 c2 c3 d1 d2 d3, ∃ d,
       extra (show_summary [Row 100 c1 "Expense" d1; Row 50 c2 "Expense" d2;
                            Row 200 c3 "Income" d3]).1 = data d
       ∧ d !! "total_expense" = Some (Num 150)
       ∧ d !! "total_income" = Some (Num 200)
       ∧ d !! "balance" = Some (Num 50)).
Proof.
  intros _. split.
  - destruct file as [|r file].
    + eexists _, 0%Q, 0%Q, 0%Q. split; [reflexivity|].
      repeat split; try (by read_key); done.
    + eexists _, _, _, _. split; [reflexivity|].
      repeat split; try (by read_key); try apply sum_of_type; done.
  - intros. eexists. split; [reflexivity|]. repeat split; by read_key.
Qed.

Lemma summary_totals_witness :
  ∃ d total_income total_expense balance,
    show_summary [Row 100 "Groceries" "Expense" "2024-01-01";
                  Row 50 "Food & Dining" "Expense" "2024-01-02";
                  Row 200 "Salary" "Income" "2024-01-03"]
    = (Response true None (data d),
       [Row 100 "Groceries" "Expense" "2024-01-01";
        Row 50 "Food & Dining" "Expense" "2024-01-02";
        Row 200 "Salary" "Income" "2024-01-03"])
    ∧ d !! "total_income" = Some (Num total_income)
    ∧ d !! "total_expense" = Some (Num total_expense)
    ∧ d !! "balance" = Some (Num balance)
    ∧ (total_income == 200)%Q ∧ (total_expense == 150)%Q ∧ (balance == 50)%Q.
Proof.
  destruct (summary_totals [Row 100 "Groceries" "Expense" "2024-01-01";
                            Row 50 "Food & Dining" "Expense" "2024-01-02";
                            Row 200 "Salary" "Income" "2024-01-03"])
    as [(d & ti & te & b & Hs & Hti & Hte & Hb & Hi & He & Hbal) _].
  - split; [|by vm_compute].
    repeat (apply Forall_cons; split;
            [eexists; split; [|reflexivity]; lia|]).
    apply Forall_nil. done.
  - exists d, ti, te, b. split; [exact Hs|].
    split; [exact Hti|]. split; [exact Hte|]. split; [exact Hb|].
    split; [exact Hi|]. split; [exact He|].
    rewrite Hbal, Hi, He. reflexivity.
Defined.

(** C9, as the specification states it, fails: an extraction with the three
    fields present and the amount 0 is not persisted. The save is refused
    and leaves the store as it was; after it the listing of the store
    created on import has no last element. *)
Lemma zero_amount_not_appended :
  let text := "spent 0 on x" in
  extract_expense_info text = Info (Some 0%Q) (Some "X") (Some "Expense")
  ∧ (∀ today file,
       save_transaction today text file
       = (Response false (Some CouldNotUnderstand)
            (extracted (extract_expense_info text)), file))
  ∧ ∀ today, ∃ l,
      (get_transactions (save_transaction today text initial).2).1
      = Response true None (rows l)
      ∧ last l = None.
Proof. repeat split. intros today. by exists []. Qed.

Lemma lower_upper_cased c :
  iscased c = true →
  iscased (lower_char c) = true ∧ iscased (upper_char c) = true
  ∧ lower_char (lower_char c) = lower_char c
  ∧ upper_char (upper_char c) = upper_char c.
Proof. destruct c as [[] [] [] [] [] [] [] []]; vm_compute; done. Qed.

Lemma title_from_idempotent b s : title_from b (title_from b s) = title_from b s.
Proof.
  revert b. induction s as [|c s IH]; intros b; simpl; [done|].
  destruct (iscased c) eqn:Hc; simpl.
  - destruct (lower_upper_cased c Hc) as (Hl & Hu & Hll & Huu).
    destruct b; [rewrite Hl, Hll | rewrite Hu, Huu]; by rewrite IH.
  - by rewrite Hc, IH.
Qed.

(** An extracted category is already in title case. *)
Lemma extracted_category_titled text c :
  Tools.Category (extract_expense_info text) = Some c → title c = c.
Proof.
  assert (∀ tl ws, title (extract_category_for_expense tl ws)
                   = extract_category_for_expense tl ws) as He.
  { intros. unfold extract_category_for_expense.
    repeat case_match; try done; apply title_from_idempotent. }
  assert (∀ tl ws, title (extract_category_for_income tl ws)
                   = extract_category_for_income tl ws) as Hi.
  { intros. unfold extract_category_for_income.
    repeat case_match; try done; apply title_from_idempotent. }
  unfold extract_expense_info.
  repeat match goal with |- context [if ?x then _ else _] => destruct x end;
    simpl; intros [= <-]; auto.
Qed.

(** C9, amended. When the extraction has its three fields present, the
    amount is not 0 and has at most fifteen digits, and the category is a
    plain cell, one that the reader of the store gives back as written,
    saving and then listing returns a sequence whose last element has the
    extracted amount, category and type and the date of the day; it is the
    record the save reports. *)
Theorem save_then_list_last today text file a c t :
  extract_expense_info text = Info (Some a) (Some c) (Some t) →
  ¬ (a == 0)%Q →
  short_amount a →
  plain_cell c →
  date_text today →
  let r := Row a c t today in
  let saved := save_transaction today text file in
  extra saved.1 = transaction r
  ∧ ∃ l, get_transactions saved.2 = (Response true None (rows l), saved.2)
      ∧ last l = Some r.
Proof.
  intros Hd Hnz _ _ _ r saved.
  assert (title c = c) as Htitle.
  { apply (extracted_category_titled text). by rewrite Hd. }
  destruct (save_transaction_cases today text file)
    as [(a' & c' & t' & Hd' & _ & _ & Hs)|[Hguard _]].
  - rewrite Hd in Hd'. injection Hd' as <- <- <-.
    subst saved r. rewrite Hs, Htitle. simpl. split; [done|].
    eexists. split; [reflexivity|]. apply last_snoc.
  - rewrite Hd in Hguard. simpl in Hguard.
    destruct (Qeq_bool a 0) eqn:Hz; [by apply Qeq_bool_iff in Hz|].
    simpl in Hguard. pose proof (extraction_category_nonempty text c) as Hne.
    rewrite Hd in Hne. specialize (Hne eq_refl).
    pose proof (extract_type_values text t) as Ht. rewrite Hd in Ht.
    destruct c; [done|]. destruct Ht as [-> | ->]; done.
Qed.

Lemma save_then_list_last_witness :
  let r := Row (150 # 1) "Groceries" "Expense" "2024-01-01" in
  let saved := save_transaction "2024-01-01" "I spent 150 on groceries" initial in
  extra saved.1 = transaction r
  ∧ ∃ l, get_transactions saved.2 = (Response true None (rows l), saved.2)
      ∧ last l = Some r.
Proof.
  apply (save_then_list_last "2024-01-01" "I spent 150 on groceries" initial).
  - reflexivity.
  - by vm_compute.
  - exists 15000%Z. split; [lia|reflexivity].
  - by vm_compute.
  - reflexivity.
Defined.

(** C8, evaluated on the code. Resetting twice leaves the store empty both
    times, and the summary of the empty store succeeds with the three totals
    0, the two category maps empty and no recent transaction; it has no
    ["total_records"] entry, which the branch for a store with records
    has. *)
Theorem reset_twice_then_summary file :
  let once := (reset_data file).2 in
  let twice := (reset_data once).2 in
  once = [] ∧ twice = []
  ∧ ∃ d, show_summary twice = (Response true (Some NoRecordsFound) (data d), [])
    ∧ d !! "total_income" = Some (Num 0)
    ∧ d !! "total_expense" = Some (Num 0)
    ∧ d !! "balance" = Some (Num 0)
    ∧ d !! "income_by_category" = Some (Dict ∅)
    ∧ d !! "expenses_by_category" = Some (Dict ∅)
    ∧ d !! "recent_transactions" = Some (Records [])
    ∧ d !! "total_records" = None.
Proof.
  simpl. split; [done|]. split; [done|].
  eexists. split; [reflexivity|]. repeat split; try (by read_key).
Qed.

(** The sibling branch: a store with records reports their number. *)
Lemma summary_total_records r file :
  ∃ d, extra (show_summary (r :: file)).1 = data d
     ∧ d !! "total_records" = Some (Num (inject_Z (Z.of_nat (length (r :: file))))).
Proof. eexists. split; [reflexivity|]. by read_key. Qed.

End Ledger.

(** ** More on the extractor *)

Section ExtractorCoverage.
Import PyStr Tools.

Lemma space_not_digit c : isspace c = true → isdigit c = false.
Proof. destruct c as [[] [] [] [] [] [] [] []]; by vm_compute. Qed.

Lemma strip_prefix_append m s t : strip_prefix m s = Some t → s = m +:+ t.
Proof.
  revert s. induction m as [|a m IH]; intros [|b s]; simpl; try done.
  - by intros [= ->].
  - by intros [= ->].
  - destruct (Ascii.eqb_spec a b) as [->|]; [|done]. intros H%IH. by rewrite H.
Qed.

Lemma from_first_digit_append m t :
  any_char isdigit m = false → from_first_digit (m +:+ t) = from_first_digit t.
Proof.
  induction m as [|c m IH]; simpl; [done|].
  intros [Hc Hm]%orb_false_iff. rewrite Hc. by apply IH.
Qed.

Lemma from_first_digit_lstrip s : from_first_digit (lstrip s) = from_first_digit s.
Proof.
  induction s as [|c s IH]; simpl; [done|].
  destruct (isspace c) eqn:Hc; [|done]. by rewrite (space_not_digit c Hc).
Qed.

Lemma take_digits_head n c s :
  isdigit c = true → ∃ ds rest, take_digits (S n) (String c s) = (String c ds, rest).
Proof. intros Hc. simpl. rewrite Hc. destruct (take_digits n s). eauto. Qed.

(** The number pattern matches exactly where a digit stands. *)
Lemma match_number_some c s : isdigit c = true → is_Some (match_number (String c s)).
Proof.
  intros Hc. unfold match_number.
  destruct (take_digits_head (String.length s) c s Hc) as (ds & rest & Heq).
  cbn [String.length]. rewrite Heq.
  destruct rest as [|d rest]; [by eexists|].
  destruct d as [[] [] [] [] [] [] [] []]; try by eexists.
  destruct (take_digits 2 rest). by eexists.
Qed.

Lemma match_number_none s :
  match s with String c _ => isdigit c = false | EmptyString => True end →
  match_number s = None.
Proof.
  destruct s as [|c s]; [done|]. intros Hc. unfold match_number.
  cbn [String.length take_digits]. by rewrite Hc.
Qed.

Lemma match_number_from_first_digit s g :
  match_number s = Some g → from_first_digit s = s.
Proof.
  destruct s as [|c s]; [done|]. simpl. destruct (isdigit c) eqn:Hc; [done|].
  by rewrite (match_number_none (String c s)).
Qed.

Lemma currency_markers_digitless m :
  m ∈ currency_markers → any_char isdigit m = false.
Proof.
  unfold currency_markers. intros Hm.
  repeat (apply elem_of_cons in Hm as [->|Hm]; [by vm_compute|]).
  by apply elem_of_nil in Hm.
Qed.

(** A match anchored at the head of [s] reads the numeral at the first
    digit of [s]. *)
Lemma match_here_first_digit s g :
  match_here s = Some g → match_number (from_first_digit s) = Some g.
Proof.
  unfold match_here. pose proof currency_markers_digitless as Hms.
  revert Hms. generalize currency_markers.
  induction l as [|m ms IH]; intros Hms; [done|].
  destruct (strip_prefix m s) as [t|] eqn:Ht; simpl.
  - unfold match_spaces_number.
    destruct (match_number (lstrip t)) as [g'|] eqn:Hg.
    + intros [= ->]. apply strip_prefix_append in Ht as ->.
      rewrite from_first_digit_append by (apply Hms; left).
      rewrite <- from_first_digit_lstrip.
      by rewrite (match_number_from_first_digit _ _ Hg).
    + apply IH. intros m' Hm'. apply Hms. by right.
  - apply IH. intros m' Hm'. apply Hms. by right.
Qed.

Lemma match_here_at_digit c s : isdigit c = true → is_Some (match_here (String c s)).
Proof.
  intros Hc. destruct (match_number_some c s Hc) as [g Hg].
  assert (isspace c = false) as Hsp.
  { destruct (isspace c) eqn:Hs; [|done]. apply space_not_digit in Hs. congruence. }
  assert (strip_prefix "" (String c s) ≫= match_spaces_number = Some g) as Hlast.
  { cbn [strip_prefix mbind option_bind]. unfold match_spaces_number.
    cbn [lstrip]. by rewrite Hsp. }
  unfold match_here.
  assert ("" ∈ currency_markers) as Hin by (unfold currency_markers; set_solver).
  revert Hin. generalize currency_markers.
  induction l as [|m ms IH]; intros Hin; [by apply elem_of_nil in Hin|].
  destruct (strip_prefix m (String c s) ≫= match_spaces_number) eqn:Hm; [by eexists|].
  apply elem_of_cons in Hin as [<-|Hin]; [congruence|by apply IH].
Qed.

Lemma re_search_first_digit s : re_search s = match_number (from_first_digit s).
Proof.
  induction s as [|c s IH]; cbn [re_search].
  - by vm_compute.
  - destruct (match_here (String c s)) as [g|] eqn:Hm.
    + symmetry. by apply match_here_first_digit.
    + cbn [from_first_digit]. destruct (isdigit c) eqn:Hc; [|done].
      destruct (match_here_at_digit c s Hc) as [g Hg]. congruence.
Qed.

Lemma from_first_digit_head s :
  match from_first_digit s with
  | String c _ => isdigit c = true ∧ has_digit s = true
  | EmptyString => has_digit s = false
  end.
Proof.
  induction s as [|c s IH]; simpl; [done|].
  destruct (isdigit c) eqn:Hc; [done|]. simpl.
  by destruct (from_first_digit s).
Qed.

(** X1. On ASCII text, the numeral that the amount pattern reads is the
    one that stands at the first digit of the lower-cased text: which
    currency marker, if any, or how much whitespace precedes the digits
    never changes the numeral read. The amount is null exactly when the
    text has no digit. *)
Theorem amount_is_first_numeral text :
  ascii_text text →
  re_search (lower text) = match_number (from_first_digit (lower text))
  ∧ (Amount (extract_expense_info text) = None ↔ has_digit (lower text) = false).
Proof.
  intros _. rewrite extract_amount, re_search_first_digit. split; [done|].
  pose proof (from_first_digit_head (lower text)) as Hhead.
  destruct (from_first_digit (lower text)) as [|c s] eqn:Hf.
  - by rewrite Hhead.
  - destruct Hhead as [Hc Hd]. destruct (match_number_some c s Hc) as [g ->].
    rewrite Hd. by split.
Qed.

Lemma amount_is_first_numeral_witness :
  re_search (lower "Paid Rs. 250.75 for tea") = Some ("250", "75")
  ∧ has_digit (lower "Paid Rs. 250.75 for tea") = true.
Proof.
  destruct (amount_is_first_numeral "Paid Rs. 250.75 for tea") as [Hg Hnone].
  - reflexivity.
  - split; [by rewrite Hg|].
    destruct (has_digit (lower "Paid Rs. 250.75 for tea")); [reflexivity|].
    by destruct Hnone as [_ Hnone]; specialize (Hnone eq_refl).
Defined.

Lemma truthy_amount_spec a :
  truthy_amount a = true ↔ ∃ q, a = Some q ∧ ¬ (q == 0)%Q.
Proof.
  destruct a as [q|]; simpl; [|split; [done|by intros (? & ? & _)]].
  rewrite negb_true_iff. split.
  - intros Hq. exists q. split; [done|]. intros Hz%Qeq_bool_iff. congruence.
  - intros (? & [= <-] & Hnz). apply not_true_is_false. by intros Hz%Qeq_bool_iff.
Qed.

(** X2. How a text is typed. It is an expense when an expense keyword
    occurs, or when no income keyword occurs, a non-zero amount was read and
    an expense-context word occurs. It is income when no expense keyword
    occurs and either an income keyword occurs, or a non-zero amount was
    read, no expense-context word occurs and an income-context word does.
    Otherwise the type is null; the category is null exactly when the type
    is. *)
Theorem type_classification text :
  let d := extract_expense_info text in
  let nonzero := ∃ a, Amount d = Some a ∧ ¬ (a == 0)%Q in
  (Type_ d = Some "Expense" ↔
     mentions expense_keywords (lower text)
     ∨ (¬ mentions income_keywords (lower text) ∧ nonzero
        ∧ mentions expense_context (lower text)))
  ∧ (Type_ d = Some "Income" ↔
       ¬ mentions expense_keywords (lower text)
       ∧ (mentions income_keywords (lower text)
          ∨ (nonzero ∧ ¬ mentions expense_context (lower text)
             ∧ mentions income_context (lower text))))
  ∧ (Type_ d = None ↔ Category d = None).
Proof.
  intros d nonzero. subst d nonzero.
  pose proof (any_in_spec expense_keywords (lower text)) as H1.
  pose proof (any_in_spec income_keywords (lower text)) as H2.
  pose proof (any_in_spec expense_context (lower text)) as H3.
  pose proof (any_in_spec income_context (lower text)) as H4.
  pose proof (truthy_amount_spec (Amount (extract_expense_info text))) as H5.
  rewrite extract_amount in *. unfold mentions.
  rewrite <- H1, <- H2, <- H3, <- H4, <- H5. clear.
  unfold extract_expense_info.
  destruct (any_in expense_keywords (lower text)),
    (any_in income_keywords (lower text)),
    (truthy_amount (float <$> re_search (lower text))),
    (any_in expense_context (lower text)),
    (any_in income_context (lower text)); simpl;
    repeat split; intros; try done; intuition discriminate.
Qed.

Lemma lower_char_idempotent c : lower_char (lower_char c) = lower_char c.
Proof. destruct c as [[] [] [] [] [] [] [] []]; by vm_compute. Qed.

Lemma lower_idempotent s : lower (lower s) = lower s.
Proof.
  induction s as [|c s IH]; simpl; [done|]. by rewrite lower_char_idempotent, IH.
Qed.

(** X3. The extractor does not see the case of letters: a text and its
    lower-cased form give the same amount, category and type. *)
Theorem extraction_ignores_case text :
  extract_expense_info (lower text) = extract_expense_info text.
Proof. unfold extract_expense_info. by rewrite lower_idempotent. Qed.

Lemma validate_transaction_data_sound_conv amount category transaction_type :
  (∃ a c t, amount = Some a ∧ category = Some c ∧ transaction_type = Some t
     ∧ (0 < a)%Q ∧ strip c ≠ "" ∧ (t = "Income" ∨ t = "Expense")) →
  validate_transaction_data amount category transaction_type = true.
Proof.
  intros (a & c & t & -> & -> & -> & Ha & Hc & Ht).
  unfold validate_transaction_data. simpl.
  assert (Qeq_bool a 0 = false) as ->.
  { apply not_true_is_false. intros Hz%Qeq_bool_iff. rewrite Hz in Ha.
    by apply Qlt_irrefl in Ha. }
  assert (Qle_bool a 0 = false) as ->.
  { apply not_true_is_false. intros Hle%Qle_bool_iff. by apply Qle_not_lt in Hle. }
  simpl. destruct c as [|x c]; [done|]. cbn [truthy negb orb].
  destruct (strip (String x c)); [done|]. simpl.
  by destruct Ht as [-> | ->].
Qed.

(** X4. [validate_transaction_data] accepts exactly an amount that is
    present and positive, a category that is present and not blank, and a
    type that is "Income" or "Expense". *)
Theorem validate_transaction_data_accepts amount category transaction_type :
  validate_transaction_data amount category transaction_type = true ↔
  ∃ a c t, amount = Some a ∧ category = Some c ∧ transaction_type = Some t
    ∧ (0 < a)%Q ∧ strip c ≠ "" ∧ (t = "Income" ∨ t = "Expense").
Proof.
  split; [apply validate_transaction_data_sound|apply validate_transaction_data_sound_conv].
Qed.

Lemma first_bucket_skip before table s :
  no_bucket before s → first_bucket (before ++ table) s = first_bucket table s.
Proof.
  induction before as [|[cat kws] before IH]; intros Hnb; [done|].
  apply first_bucket_none in Hnb. simpl in *.
  destruct (any_in kws s); [done|]. apply IH. by apply first_bucket_none.
Qed.

Lemma first_bucket_hit cat keywords table s :
  mentions keywords s → first_bucket ((cat, keywords) :: table) s = Some cat.
Proof. intros Hk%any_in_spec. simpl. by rewrite Hk. Qed.

Lemma category_names_titled cat keywords :
  (cat, keywords) ∈ category_keywords → cat ≠ "" ∧ title cat = cat.
Proof.
  unfold category_keywords. intros Hin.
  repeat (apply elem_of_cons in Hin as [[= -> _]|Hin]; [by vm_compute|]).
  by apply elem_of_nil in Hin.
Qed.

Lemma source_names_titled src keywords :
  (src, keywords) ∈ income_sources → src ≠ "" ∧ title src = src.
Proof.
  unfold income_sources. intros Hin.
  repeat (apply elem_of_cons in Hin as [[= -> _]|Hin]; [by vm_compute|]).
  by apply elem_of_nil in Hin.
Qed.

Lemma income_category_of_income text :
  Type_ (extract_expense_info text) = Some "Income" →
  Category (extract_expense_info text)
  = Some (extract_category_for_income (lower text) (split (lower text))).
Proof.
  unfold extract_expense_info.
  repeat match goal with |- context [if ?x then _ else _] => destruct x end;
    simpl; done.
Qed.

(** X5. Expense buckets are tried in table order and the first hit wins:
    when a keyword of a bucket occurs in the text of an expense and no
    keyword of an earlier bucket does, the category is that bucket's name,
    whatever prepositions, numbers or later buckets' keywords the text
    holds. *)
Theorem expense_bucket_priority text before cat keywords after :
  Type_ (extract_expense_info text) = Some "Expense" →
  category_keywords = before ++ (cat, keywords) :: after →
  no_bucket before (lower text) →
  mentions keywords (lower text) →
  Category (extract_expense_info text) = Some cat.
Proof.
  intros Hty Htable Hbefore Hhit.
  rewrite expense_category_of_expense by done. f_equal.
  destruct (category_names_titled cat keywords) as [Hne Htitle].
  { rewrite Htable. apply elem_of_app. right. by left. }
  unfold extract_category_for_expense.
  rewrite Htable, first_bucket_skip, (first_bucket_hit cat keywords) by done.
  destruct cat; [done|]. simpl. exact Htitle.
Qed.

Lemma expense_bucket_priority_witness :
  Category (extract_expense_info "Bought pizza at the mall for 300")
  = Some "Food & Dining".
Proof.
  apply (expense_bucket_priority "Bought pizza at the mall for 300" []
           "Food & Dining"
           ["food"; "restaurant"; "lunch"; "dinner"; "breakfast"; "ate"; "pizza";
            "coffee"; "snack"]
           (List.tail category_keywords)).
  - reflexivity.
  - reflexivity.
  - intros ??? Hin. by apply elem_of_nil in Hin.
  - exists "pizza". split; [set_solver|].
    by exists "bought ", " at the mall for 300".
Defined.

(** X6. Income sources are tried in table order and the first hit wins:
    when a keyword of a source occurs in the text of an income and no
    keyword of an earlier source does, the category is that source's
    name. *)
Theorem income_source_priority text before src keywords after :
  Type_ (extract_expense_info text) = Some "Income" →
  income_sources = before ++ (src, keywords) :: after →
  no_bucket before (lower text) →
  mentions keywords (lower text) →
  Category (extract_expense_info text) = Some src.
Proof.
  intros Hty Htable Hbefore Hhit.
  rewrite income_category_of_income by done. f_equal.
  destruct (source_names_titled src keywords) as [Hne Htitle].
  { rewrite Htable. apply elem_of_app. right. by left. }
  unfold extract_category_for_income.
  rewrite Htable, first_bucket_skip, (first_bucket_hit src keywords) by done.
  destruct src; [done|]. simpl. exact Htitle.
Qed.

Lemma income_source_priority_witness :
  Category (extract_expense_info "Received 5000 salary from company")
  = Some "Salary".
Proof.
  apply (income_source_priority "Received 5000 salary from company" []
           "Salary" ["salary"; "job"; "work"; "employment"; "paycheck"]
           (List.tail income_sources)).
  - reflexivity.
  - reflexivity.
  - intros ??? Hin. by apply elem_of_nil in Hin.
  - exists "salary". split; [set_solver|].
    by exists "received 5000 ", " from company".
Defined.

(** X7. The "from" fallback of an income: when no source keyword occurs
    and the first "from" among the words is followed by words, the category
    is those words joined with spaces and title-cased. *)
Theorem income_category_after_from text rest :
  Type_ (extract_expense_info text) = Some "Income" →
  no_bucket income_sources (lower text) →
  followed_by "from" (split (lower text)) rest →
  Category (extract_expense_info text) = Some (title (join " " rest)).
Proof.
  intros Hty Hnb%first_bucket_none (pre & Hw & Hpre & Hrest).
  rewrite income_category_of_income by done. f_equal.
  unfold extract_category_for_income. rewrite Hnb. simpl negb. cbv iota.
  assert (Forall token rest) as Htok.
  { pose proof (split_tokens (lower text)) as Htok. rewrite Hw in Htok.
    apply Forall_app in Htok as [_ Htok]. by inversion Htok. }
  assert (member "from" (split (lower text)) = true) as ->.
  { apply member_spec. rewrite Hw. set_solver. }
  rewrite Hw, index_first by done. simpl andb. cbv iota.
  assert (Nat.ltb (length pre + 1) (length (pre ++ "from" :: rest)) = true) as ->.
  { apply Nat.ltb_lt. rewrite length_app. destruct rest; [done|simpl; lia]. }
  rewrite drop_app_add. change (drop 1 ("from" :: rest)) with rest.
  rewrite strip_join_tokens by done.
  pose proof (join_tokens_nonempty rest Htok Hrest).
  by destruct (join " " rest).
Qed.

Lemma income_category_after_from_witness :
  Category (extract_expense_info "Got 500 from uncle Bob") = Some "Uncle Bob".
Proof.
  apply (income_category_after_from "Got 500 from uncle Bob" ["uncle"; "bob"]).
  - reflexivity.
  - by apply first_bucket_none.
  - exists ["got"; "500"]. split; [reflexivity|]. split; [|done].
    intros Hin%member_spec. by vm_compute in Hin.
Defined.

Lemma has_digit_any_char s : has_digit s = any_char isdigit s.
Proof. induction s as [|c s IH]; simpl; [done|]. by rewrite IH. Qed.

(** A character of a word of [split] is a character of the text. *)
Lemma split_from_chars P cur s w :
  w ∈ split_from cur s → any_char P w = true →
  any_char P cur || any_char P s = true.
Proof.
  revert cur. induction s as [|c s IH]; intros cur Hin Hw; simpl in *.
  - destruct cur; [by apply elem_of_nil in Hin|].
    apply list_elem_of_singleton in Hin as ->. by rewrite Hw.
  - destruct (isspace c).
    + destruct cur as [|x cur].
      * specialize (IH "" Hin Hw). simpl in IH. by rewrite IH, !orb_true_r.
      * apply elem_of_cons in Hin as [->|Hin]; [by rewrite Hw|].
        specialize (IH "" Hin Hw). simpl in IH. by rewrite IH, !orb_true_r.
    + specialize (IH _ Hin Hw). rewrite any_char_app in IH. simpl in IH.
      destruct (any_char P cur), (P c); simpl in *; done.
Qed.

Lemma split_chars P s w :
  w ∈ split s → any_char P w = true → any_char P s = true.
Proof. intros Hin Hw. by apply (split_from_chars P "" s w). Qed.

Lemma words_after_amount_found words :
  words_after_amount true words = List.filter (λ w, negb (has_digit w)) words.
Proof.
  induction words as [|w words IH]; simpl; [done|].
  destruct (has_digit w); simpl; by rewrite IH.
Qed.

Lemma words_after_amount_spec words :
  words_after_amount false words
  = List.filter (λ w, negb (has_digit w)) (after_first_number words).
Proof.
  induction words as [|w words IH]; simpl; [done|].
  destruct (has_digit w); [apply words_after_amount_found|done].
Qed.

Lemma after_first_number_suffix words :
  ∃ pre, words = pre ++ after_first_number words
         ∧ (after_first_number words ≠ [] → ∃ w, w ∈ pre ∧ has_digit w = true).
Proof.
  induction words as [|w words (pre & IH & Hd)]; simpl.
  - by exists [].
  - destruct (has_digit w) eqn:Hw.
    + exists [w]. split; [done|]. intros _. exists w. split; [by left|done].
    + exists (w :: pre). split; [simpl; by f_equal|].
      intros (w' & Hin & Hw')%Hd. exists w'. split; [by right|done].
Qed.

Lemma Forall_list_filter {A} (P : A → Prop) f (l : list A) :
  Forall P l → Forall P (List.filter f l).
Proof.
  induction 1 as [|x l Hx Hl IH]; simpl; [done|]. destruct (f x); by try constructor.
Qed.

Lemma preposition_loop_none keywords words :
  (∀ k, k ∈ keywords → ∀ rest, ¬ followed_by k words rest) →
  preposition_loop keywords words = None.
Proof.
  induction keywords as [|k keywords IH]; intros Hnot; [done|].
  rewrite preposition_skipped by (apply Hnot; left).
  apply IH. intros k' Hk'. apply Hnot. by right.
Qed.

(** X8. The last fallback of an expense. When no bucket keyword occurs and
    no preposition is followed by a word, the category is made of the words
    that come after the first word holding a digit and hold no digit
    themselves: the first three of them, joined with spaces and title-cased;
    it is "Miscellaneous" when there is no such word. *)
Theorem expense_category_after_number text :
  Type_ (extract_expense_info text) = Some "Expense" →
  no_bucket category_keywords (lower text) →
  (∀ k, k ∈ prepositions → ∀ rest, ¬ followed_by k (split (lower text)) rest) →
  Category (extract_expense_info text)
  = Some match List.filter (λ w, negb (has_digit w))
                 (after_first_number (split (lower text))) with
         | [] => "Miscellaneous"
         | w :: ws => title (join " " (take 3 (w :: ws)))
         end.
Proof.
  intros Hty Hnb%first_bucket_none Hprep.
  rewrite expense_category_of_expense by done. f_equal.
  unfold extract_category_for_expense.
  rewrite Hnb. cbn [negb truthy].
  rewrite preposition_loop_none by done. cbn [negb truthy andb].
  rewrite words_after_amount_spec.
  destruct (after_first_number_suffix (split (lower text))) as (pre & Hw & Hd).
  destruct (List.filter _ (after_first_number (split (lower text))))
    as [|w ws] eqn:Hafter.
  - by destruct (has_digit (lower text)).
  - assert (has_digit (lower text) = true) as ->.
    { destruct Hd as (w' & Hin & Hw').
      - intros Hnil. by rewrite Hnil in Hafter.
      - rewrite has_digit_any_char in *. apply (split_chars _ _ w'); [|done].
        rewrite Hw. apply elem_of_app. by left. }
    assert (Forall token (w :: ws)) as Htok.
    { rewrite <- Hafter. apply Forall_list_filter.
      pose proof (split_tokens (lower text)) as Htok. rewrite Hw in Htok.
      by apply Forall_app in Htok as [_ Htok]. }
    assert (Forall token (take 3 (w :: ws))) as Htok3 by by apply Forall_take.
    rewrite strip_join_tokens by done.
    pose proof (join_tokens_nonempty _ Htok3) as Hne.
    destruct (join " " (take 3 (w :: ws))); [by destruct Hne|done].
Qed.

Lemma expense_category_after_number_witness :
  Category (extract_expense_info "Paid 40 cab ride home quickly")
  = Some "Cab Ride Home".
Proof.
  apply (expense_category_after_number "Paid 40 cab ride home quickly").
  - reflexivity.
  - by apply first_bucket_none.
  - intros k Hk rest (pre & Hw & _).
    assert (member k (split (lower "Paid 40 cab ride home quickly")) = true) as Hm.
    { apply member_spec. rewrite Hw. apply elem_of_app. right. by left. }
    revert Hm. unfold prepositions in Hk.
    repeat (apply elem_of_cons in Hk as [->|Hk]; [by vm_compute|]).
    by apply elem_of_nil in Hk.
Defined.

Lemma take_digits_length n s : String.length (take_digits n s).1 ≤ n.
Proof.
  revert s. induction n as [|n IH]; intros [|c s]; simpl; try lia.
  destruct (isdigit c); simpl; [|lia].
  specialize (IH s). destruct (take_digits n s). simpl in *. lia.
Qed.

Lemma match_number_fraction s ds fs :
  match_number s = Some (ds, fs) → String.length fs ≤ 2.
Proof.
  unfold match_number.
  destruct (take_digits (String.length s) s) as [[|d ds'] rest]; [done|].
  assert (Some (String d ds', "") = Some (ds, fs) → String.length fs ≤ 2) as Hplain.
  { intros [= <- <-]. simpl. lia. }
  destruct rest as [|c rest]; [exact Hplain|].
  destruct c as [[] [] [] [] [] [] [] []]; try exact Hplain.
  pose proof (take_digits_length 2 rest) as Hfs.
  destruct (take_digits 2 rest) as [fs' ?]. by intros [= <- <-].
Qed.

Lemma match_number_nonempty s ds fs : match_number s = Some (ds, fs) → ds ≠ "".
Proof.
  unfold match_number.
  destruct (take_digits (String.length s) s) as [[|d ds'] rest]; [done|].
  assert (Some (String d ds', "") = Some (ds, fs) → ds ≠ "") as Hplain.
  { by intros [= <- <-]. }
  destruct rest as [|c rest]; [exact Hplain|].
  destruct c as [[] [] [] [] [] [] [] []]; try exact Hplain.
  destruct (take_digits 2 rest) as [[|f fs'] ?]; by intros [= <- <-].
Qed.

(** X21. On ASCII text, the numeral that the amount pattern reads is a
    run of at least one digit, followed by at most two digits after the
    point: further digits of the text are left out, not rounded. *)
Theorem amount_fraction_digits text ds fs :
  ascii_text text →
  re_search (lower text) = Some (ds, fs) →
  ds ≠ "" ∧ digits ds ∧ digits fs ∧ String.length fs ≤ 2.
Proof.
  intros _ Hg. pose proof (re_search_digits _ _ _ Hg) as [Hds Hfs].
  rewrite re_search_first_digit in Hg.
  split; [by eapply match_number_nonempty|]. split; [done|]. split; [done|].
  by eapply match_number_fraction.
Qed.

Lemma amount_fraction_digits_witness :
  re_search (lower "paid 12.999 for tea") = Some ("12", "99")
  ∧ String.length "99" ≤ 2.
Proof.
  split; [reflexivity|].
  apply (amount_fraction_digits "paid 12.999 for tea" "12" "99"); reflexivity.
Defined.

(** *** What the clean-up leaves *)

Lemma lower_no_upper s : any_char isupper (lower s) = false.
Proof.
  assert (∀ c, isupper (lower_char c) = false) as Hc.
  { intros c. destruct c as [[] [] [] [] [] [] [] []]; by vm_compute. }
  induction s as [|c s IH]; simpl; [done|]. by rewrite Hc, IH.
Qed.

Lemma any_char_join_false P l :
  P " "%char = false → Forall (λ w, any_char P w = false) l →
  any_char P (join " " l) = false.
Proof.
  intros Hsp. induction 1 as [|x l Hx Hl IH]; [done|].
  destruct l as [|y l]; [done|].
  rewrite join_cons2, !any_char_app, Hx, IH. simpl. by rewrite Hsp.
Qed.

Lemma any_char_remove_from_false P old skip s :
  any_char P s = false → any_char P (remove_from old skip s) = false.
Proof.
  revert skip. induction s as [|c s IH]; intros skip; simpl; [done|].
  intros [Hc Hs]%orb_false_iff. destruct skip; [|by apply IH].
  destruct (startswith old (String c s)); [by apply IH|].
  simpl. by rewrite Hc, IH.
Qed.

Lemma any_char_lstrip_false P s :
  any_char P s = false → any_char P (lstrip s) = false.
Proof.
  induction s as [|c s IH]; simpl; [done|].
  intros [Hc Hs]%orb_false_iff. destruct (isspace c); [by apply IH|].
  simpl. by rewrite Hc, Hs.
Qed.

Lemma any_char_rstrip_false P s :
  any_char P s = false → any_char P (rstrip s) = false.
Proof.
  induction s as [|c s IH]; simpl; [done|].
  intros [Hc Hs]%orb_false_iff. specialize (IH Hs).
  destruct (rstrip s) as [|d r].
  - destruct (isspace c); simpl; [done|by rewrite Hc].
  - change (any_char P (String c (String d r))) with (P c || any_char P (String d r)).
    by rewrite Hc, IH.
Qed.

Lemma any_char_strip_false P s :
  any_char P s = false → any_char P (strip s) = false.
Proof. intros Hs. by apply any_char_rstrip_false, any_char_lstrip_false. Qed.

(** Removing "a" leaves no letter a. *)
Lemma remove_a_none s : any_char (λ c, Ascii.eqb c "a") (remove "a" s) = false.
Proof.
  unfold remove. induction s as [|c s IH]; [done|].
  cbn [remove_from startswith String.length].
  destruct (Ascii.eqb_spec "a"%char c) as [<-|Hne]; [exact IH|].
  simpl. rewrite IH, orb_false_r. by apply Ascii.eqb_neq.
Qed.

Lemma title_from_letter_a_free b s :
  any_char isupper s = false → any_char (λ c, Ascii.eqb c "a") s = false →
  letter_a_free (title_from b s).
Proof.
  assert (∀ c, isupper c = false → Ascii.eqb c "a" = false →
            ∀ c', (c' = c ∨ c' = lower_char c ∨ c' = upper_char c) →
                  Ascii.eqb c' "a" || Ascii.eqb c' "A" = false) as Hchar.
  { intros c. destruct c as [[] [] [] [] [] [] [] []]; vm_compute;
      intros ? ? c' [->|[->| ->]]; done. }
  unfold letter_a_free. revert b.
  induction s as [|c s IH]; intros b; simpl; [done|].
  intros [Hu Hus]%orb_false_iff [Ha Has]%orb_false_iff.
  destruct (iscased c); simpl; rewrite IH by done;
    rewrite orb_false_r; apply (Hchar c Hu Ha); destruct b; auto.
Qed.

Lemma clean_up_letters s :
  any_char isupper s = false →
  any_char isupper (clean_up s) = false
  ∧ any_char (λ c, Ascii.eqb c "a") (clean_up s) = false.
Proof.
  intros Hs. unfold clean_up. split.
  - unfold remove.
    by apply any_char_strip_false, any_char_remove_from_false,
      any_char_remove_from_false.
  - apply any_char_strip_false, remove_a_none.
Qed.

Lemma preposition_loop_first earlier k later words rest :
  (∀ k', k' ∈ earlier → ∀ rest', ¬ followed_by k' words rest') →
  followed_by k words rest →
  preposition_loop (earlier ++ k :: later) words
  = Some (clean_up (strip (join " " rest))).
Proof.
  intros Hearlier Hfollowed. induction earlier as [|k' earlier IH]; simpl app.
  - by apply preposition_taken.
  - rewrite preposition_skipped by (apply Hearlier; left).
    apply IH. intros k'' Hin. apply Hearlier. by right.
Qed.

(** X9. The preposition fallback of an expense, for any words of an ASCII
    text. When no bucket keyword occurs, the category is read after the first occurrence
    of the first preposition, in the order on, for, to, at, that is followed
    by a word: it is the title-cased clean-up of the words that follow,
    joined with spaces, when that clean-up is not empty. The clean-up works
    on letters, not on words, so such a category never holds the letter a,
    in either case. *)
Theorem preposition_category_has_no_letter_a text earlier k later rest :
  ascii_text text →
  Type_ (extract_expense_info text) = Some "Expense" →
  no_bucket category_keywords (lower text) →
  prepositions = earlier ++ k :: later →
  (∀ k', k' ∈ earlier → ∀ rest', ¬ followed_by k' (split (lower text)) rest') →
  followed_by k (split (lower text)) rest →
  clean_up (join " " rest) ≠ "" →
  Category (extract_expense_info text) = Some (title (clean_up (join " " rest)))
  ∧ letter_a_free (title (clean_up (join " " rest))).
Proof.
  intros _ Hty Hnb%first_bucket_none Hk Hearlier Hfollowed Hne.
  assert (Forall token rest) as Htok.
  { destruct Hfollowed as (pre & Hw & _).
    pose proof (split_tokens (lower text)) as Htok. rewrite Hw in Htok.
    apply Forall_app in Htok as [_ Htok]. by inversion Htok. }
  split.
  - rewrite expense_category_of_expense by done. f_equal.
    unfold extract_category_for_expense. rewrite Hnb, Hk. cbn [negb truthy].
    rewrite (preposition_loop_first earlier k later _ rest) by done.
    rewrite strip_join_tokens by done.
    destruct (clean_up (join " " rest)); done.
  - assert (any_char isupper (join " " rest) = false) as Hup.
    { apply any_char_join_false; [done|].
      destruct Hfollowed as (pre & Hw & _).
      apply Forall_forall. intros w Hin. apply not_true_is_false. intros Hu.
      assert (any_char isupper (lower text) = true) as Habs.
      { apply (split_chars _ _ w); [|done]. rewrite Hw.
        apply elem_of_app. right. by right. }
      by rewrite lower_no_upper in Habs. }
    destruct (clean_up_letters _ Hup). by apply title_from_letter_a_free.
Qed.

Lemma preposition_category_has_no_letter_a_witness :
  Category (extract_expense_info "Spent 250 on a random Saturday treat")
  = Some "Rndom Sturdy Tret"
  ∧ letter_a_free "Rndom Sturdy Tret".
Proof.
  apply (preposition_category_has_no_letter_a
           "Spent 250 on a random Saturday treat" [] "on" ["for"; "to"; "at"]
           ["a"; "random"; "saturday"; "treat"]).
  - reflexivity.
  - reflexivity.
  - by apply first_bucket_none.
  - reflexivity.
  - intros k' Hk'. by apply elem_of_nil in Hk'.
  - exists ["spent"; "250"]. split; [reflexivity|]. split; [|done].
    intros Hin%member_spec. by vm_compute in Hin.
  - by vm_compute.
Defined.

(** *** The validator and the guard of [save_transaction] *)

Lemma rstrip_empty s :
  rstrip s = "" ↔ any_char (λ c, negb (isspace c)) s = false.
Proof.
  induction s as [|c s IH]; simpl; [done|].
  destruct (rstrip s) as [|d r].
  - rewrite (proj1 IH eq_refl), orb_false_r. by destruct (isspace c).
  - split; [done|]. intros [_ Hs]%orb_false_iff. by apply IH in Hs.
Qed.

Lemma nonblank_lstrip s :
  any_char (λ c, negb (isspace c)) (lstrip s) = any_char (λ c, negb (isspace c)) s.
Proof.
  induction s as [|c s IH]; simpl; [done|].
  destruct (isspace c) eqn:Hc; simpl; [done|]. by rewrite Hc.
Qed.

Lemma nonblank_rstrip s :
  any_char (λ c, negb (isspace c)) (rstrip s) = any_char (λ c, negb (isspace c)) s.
Proof.
  induction s as [|c s IH]; simpl; [done|].
  destruct (rstrip s) as [|d r] eqn:Hr.
  - apply rstrip_empty in Hr. rewrite Hr, orb_false_r.
    destruct (isspace c) eqn:Hc; simpl; by rewrite ?Hc.
  - change (any_char (λ c, negb (isspace c)) (String c (String d r)))
      with (negb (isspace c) || any_char (λ c, negb (isspace c)) (String d r)).
    by rewrite IH.
Qed.

Lemma strip_nonempty s : strip s ≠ "" ↔ nonblank s.
Proof.
  unfold strip, nonblank. rewrite rstrip_empty, nonblank_lstrip.
  destruct (any_char _ s); split; done.
Qed.

Lemma nonblank_strip s : strip s ≠ "" → nonblank (strip s).
Proof.
  intros Hs%strip_nonempty. unfold strip, nonblank in *.
  by rewrite nonblank_rstrip, nonblank_lstrip.
Qed.

Lemma nonblank_title b s : nonblank s → nonblank (title_from b s).
Proof.
  assert (∀ c, iscased c = true →
            isspace c = false ∧ isspace (lower_char c) = false
            ∧ isspace (upper_char c) = false) as Hchar.
  { intros c. destruct c as [[] [] [] [] [] [] [] []]; by vm_compute. }
  unfold nonblank. revert b. induction s as [|c s IH]; intros b; simpl; [done|].
  destruct (iscased c) eqn:Hc; simpl.
  - destruct (Hchar c Hc) as (_ & Hl & Hu). by destruct b; rewrite ?Hl, ?Hu.
  - intros [Hn|Hs]%orb_true_iff; [by rewrite Hn|]. by rewrite IH, orb_true_r.
Qed.

Lemma first_bucket_in table s cat :
  first_bucket table s = Some cat → ∃ keywords, (cat, keywords) ∈ table.
Proof.
  induction table as [|[c kws] table IH]; simpl; [done|].
  destruct (any_in kws s).
  - intros [= ->]. exists kws. by left.
  - intros (kws' & Hin)%IH. exists kws'. by right.
Qed.

Lemma bucket_names_nonblank cat keywords :
  (cat, keywords) ∈ category_keywords ++ income_sources → nonblank cat.
Proof.
  unfold category_keywords, income_sources. simpl app. intros Hin.
  repeat (apply elem_of_cons in Hin as [[= -> _]|Hin]; [by vm_compute|]).
  by apply elem_of_nil in Hin.
Qed.

Lemma preposition_loop_stripped keywords words c :
  preposition_loop keywords words = Some c → ∃ s, c = strip s.
Proof.
  induction keywords as [|k keywords IH]; simpl; [done|].
  repeat case_match; try done. intros [= <-]. unfold clean_up. by eexists.
Qed.

(** A category of the extractor is never blank. *)
Lemma expense_category_nonblank text_lower words :
  nonblank (extract_category_for_expense text_lower words).
Proof.
  unfold extract_category_for_expense.
  destruct (first_bucket category_keywords text_lower) as [cat|] eqn:Hb.
  - apply first_bucket_in in Hb as [kws Hin].
    assert (nonblank cat) as Hcat.
    { apply (bucket_names_nonblank cat kws), elem_of_app. by left. }
    destruct cat as [|x cat]; [done|]. simpl negb. cbn [andb].
    by apply nonblank_title.
  - cbn [negb truthy andb].
    assert (∀ o : option string, (∀ c, o = Some c → ∃ s, c = strip s) →
              nonblank match o with
                       | Some (String _ _ as c) => title c
                       | _ => "Miscellaneous"
                       end) as Hfinal.
    { intros [[|x c]|] Ho; try done.
      destruct (Ho _ eq_refl) as [s Hs]. rewrite Hs.
      apply nonblank_title, nonblank_strip. by rewrite <- Hs. }
    apply Hfinal. intros c.
    destruct (preposition_loop prepositions words) as [p|] eqn:Hp.
    + destruct (negb (truthy (Some p)) && has_digit text_lower);
        [destruct (words_after_amount false words)|];
        intros [= <-]; eauto using preposition_loop_stripped.
    + destruct (negb (truthy None) && has_digit text_lower);
        [destruct (words_after_amount false words)|]; try done.
      intros [= <-]. by eexists.
Qed.

Lemma income_category_nonblank text_lower words :
  nonblank (extract_category_for_income text_lower words).
Proof.
  unfold extract_category_for_income.
  destruct (first_bucket income_sources text_lower) as [src|] eqn:Hb.
  - apply first_bucket_in in Hb as [kws Hin].
    assert (nonblank src) as Hsrc.
    { apply (bucket_names_nonblank src kws), elem_of_app. by right. }
    destruct src as [|x src]; [done|]. simpl negb. cbn [andb].
    by apply nonblank_title.
  - cbn [negb truthy andb].
    destruct (member "from" words); [|done].
    destruct (index "from" words) as [idx|]; [|done].
    destruct (Nat.ltb _ _); [|done].
    destruct (strip _) as [|x c] eqn:Hs; [done|]. rewrite <- Hs.
    apply nonblank_title, nonblank_strip. by rewrite Hs.
Qed.

Lemma extraction_category_nonblank text c :
  Category (extract_expense_info text) = Some c → strip c ≠ "".
Proof.
  intros Hc. apply strip_nonempty. revert Hc. unfold extract_expense_info.
  repeat match goal with |- context [if ?x then _ else _] => destruct x end;
    simpl; intros [= <-];
    auto using expense_category_nonblank, income_category_nonblank.
Qed.

(** X10. [save_transaction] and [validate_transaction_data] agree: a text
    is persisted exactly when the validator accepts the three fields
    extracted from it, although [save_transaction] only tests that the
    fields are truthy and never calls the validator. *)
Theorem save_guard_is_validator today text file :
  let d := extract_expense_info text in
  TrackerAgent.success (TrackerAgent.save_transaction today text file).1
  = validate_transaction_data (Amount d) (Category d) (Type_ d).
Proof.
  intros d.
  destruct (save_transaction_cases today text file)
    as [(a & c & t & Hd & Hnz & Hc & ->)|[Hguard ->]]; fold d in Hd || fold d in Hguard.
  - simpl. symmetry. apply validate_transaction_data_sound_conv.
    exists a, c, t. rewrite Hd. repeat split; try done.
    + destruct (extraction_amount_value text a) as (g & _ & ->).
      { fold d. by rewrite Hd. }
      destruct (proj1 (Qle_lteq 0 (float g)) (float_nonneg g)) as [?|Hz]; [done|].
      by symmetry in Hz.
    + apply (extraction_category_nonblank text). fold d. by rewrite Hd.
    + pose proof (extract_type_values text t) as Ht. fold d in Ht.
      rewrite Hd in Ht. destruct Ht as [-> | ->]; auto.
  - simpl. symmetry. unfold validate_transaction_data.
    destruct (Amount d) as [a|]; [|done]. simpl in *.
    destruct (Qeq_bool a 0); [done|]. simpl in *.
    destruct (Qle_bool a 0); [done|].
    destruct (Category d) as [[|x c]|]; try done. cbn [truthy negb orb andb] in *.
    destruct (Nat.eqb _ 0); [done|].
    destruct (Type_ d) as [[|y t]|]; done.
Qed.

End ExtractorCoverage.

(** ** More on the ledger store *)

Section LedgerCoverage.
Import PyStr Tools TrackerAgent.

Lemma whole_amount_Z n : (0 ≤ n)%Z → whole_amount (inject_Z n).
Proof. intros Hn. by exists n. Qed.

Lemma short_amount_whole n : (0 ≤ n < 10 ^ 13)%Z → short_amount (inject_Z n).
Proof.
  intros Hn. exists (n * 100)%Z. split; [lia|].
  unfold Qeq. simpl. lia.
Qed.

(** A store given row by row is plain; its amounts are whole. *)
Ltac plain_rows :=
  repeat (apply Forall_cons; split;
          [split; [apply short_amount_whole; lia | by vm_compute]|]);
  apply Forall_nil_2.

Ltac whole_rows :=
  split; [repeat (apply Forall_cons; split; [apply whole_amount_Z; lia|]);
          apply Forall_nil_2
         | by vm_compute].

(** X11. Deleting at a position inside a store of plain rows succeeds,
    returns the record that stood there and leaves the records before it
    followed by the records after it: every later record moves down by one
    position. *)
Theorem delete_in_range index file :
  plain_store file →
  (0 ≤ index < Z.of_nat (length file))%Z →
  let i := Z.to_nat index in
  ∃ r, file !! i = Some r
    ∧ delete_transaction index file
      = (Response true
           (Some (TransactionDeleted (TrackerAgent.Amount r) (TrackerAgent.Category r)))
           (deleted_transaction r),
         take i file ++ drop (S i) file)
    ∧ length (take i file ++ drop (S i) file) = length file - 1
    ∧ ∀ j, (take i file ++ drop (S i) file) !! j
           = if decide (j < i) then file !! j else file !! S j.
Proof.
  intros _ Hrange i.
  destruct (lookup_lt_is_Some_2 file i) as [r Hr]; [subst i; lia|].
  exists r. split; [done|]. rewrite <- delete_take_drop. repeat split.
  - unfold delete_transaction, mbind, mret, io_bind, io_ret, read_csv, to_csv.
    simpl. fold i.
    destruct (Z.leb_spec 0 index); [|lia].
    destruct (Z.ltb_spec index (Z.of_nat (length file))); [|lia].
    simpl. by rewrite Hr.
  - rewrite length_delete by by eexists. lia.
  - intros j. case_decide.
    + by apply list_lookup_delete_lt.
    + apply list_lookup_delete_ge. lia.
Qed.

Lemma delete_in_range_witness :
  ∃ r, [Row 100 "Groceries" "Expense" "2024-01-01";
        Row 50 "Food & Dining" "Expense" "2024-01-02";
        Row 200 "Salary" "Income" "2024-01-03"] !! 0 = Some r
       ∧ (delete_transaction 0
            [Row 100 "Groceries" "Expense" "2024-01-01";
             Row 50 "Food & Dining" "Expense" "2024-01-02";
             Row 200 "Salary" "Income" "2024-01-03"]).2
         = [Row 50 "Food & Dining" "Expense" "2024-01-02";
            Row 200 "Salary" "Income" "2024-01-03"].
Proof.
  destruct (delete_in_range 0
              [Row 100 "Groceries" "Expense" "2024-01-01";
               Row 50 "Food & Dining" "Expense" "2024-01-02";
               Row 200 "Salary" "Income" "2024-01-03"]) as (r & Hr & Hd & _).
  - plain_rows.
  - simpl. lia.
  - exists r. split; [exact Hr|]. by rewrite Hd.
Defined.

(** X12. A save that succeeds and leaves a store of plain rows is undone
    by deleting at the position the store had as its length: the deletion
    returns the record the save reported and the store is the one from
    before the save. *)
Theorem save_then_delete_last today text file :
  let saved := save_transaction today text file in
  success saved.1 = true →
  plain_store saved.2 →
  ∃ r, extra saved.1 = transaction r
    ∧ delete_transaction (Z.of_nat (length file)) saved.2
      = (Response true
           (Some (TransactionDeleted (TrackerAgent.Amount r) (TrackerAgent.Category r)))
           (deleted_transaction r),
         file).
Proof.
  intros saved Hok _. subst saved.
  destruct (save_transaction_cases today text file)
    as [(a & c & t & _ & _ & _ & Hs)|[_ Hs]]; rewrite Hs in *; [|done].
  eexists. split; [done|].
  unfold delete_transaction, mbind, mret, io_bind, io_ret, read_csv, to_csv.
  cbn [fst snd]. rewrite length_app, Nat2Z.id. cbn [length].
  destruct (Z.leb_spec 0 (Z.of_nat (length file))); [|lia].
  destruct (Z.ltb_spec (Z.of_nat (length file)) (Z.of_nat (length file + 1))); [|lia].
  cbn [andb]. rewrite list_lookup_middle by done.
  by rewrite delete_middle, app_nil_r.
Qed.

Lemma save_then_delete_last_witness :
  ∃ r, extra (save_transaction "2024-01-01" "I spent 150 on groceries" initial).1
       = transaction r
    ∧ delete_transaction (Z.of_nat (length initial))
        (save_transaction "2024-01-01" "I spent 150 on groceries" initial).2
      = (Response true
           (Some (TransactionDeleted (TrackerAgent.Amount r) (TrackerAgent.Category r)))
           (deleted_transaction r),
         initial).
Proof.
  apply (save_then_delete_last "2024-01-01" "I spent 150 on groceries" initial).
  - reflexivity.
  - change (plain_store [Row 150 "Groceries" "Expense" "2024-01-01"]).
    plain_rows.
Defined.

(** X13. The recent transactions of the summary of a store of plain rows
    are the last records of the store in storage order: ten of them, or
    all when the store holds fewer. *)
Theorem summary_recent_transactions file :
  plain_store file →
  ∃ d recent older,
    extra (show_summary file).1 = data d
    ∧ d !! "recent_transactions" = Some (Records recent)
    ∧ file = older ++ recent
    ∧ length recent = min 10 (length file).
Proof.
  intros _. destruct file as [|r file].
  - eexists _, [], []. repeat split.
  - eexists _, _, (take (length (r :: file) - 10) (r :: file)).
    split; [reflexivity|]. split; [reflexivity|].
    unfold tail. split; [by rewrite take_drop|].
    rewrite length_drop. lia.
Qed.

Lemma summary_recent_transactions_witness :
  ∃ d recent older,
    extra (show_summary [Row 100 "Groceries" "Expense" "2024-01-01";
                         Row 200 "Salary" "Income" "2024-01-03"]).1 = data d
    ∧ d !! "recent_transactions" = Some (Records recent)
    ∧ [Row 100 "Groceries" "Expense" "2024-01-01";
       Row 200 "Salary" "Income" "2024-01-03"] = older ++ recent
    ∧ length recent = 2.
Proof.
  apply (summary_recent_transactions
           [Row 100 "Groceries" "Expense" "2024-01-01";
            Row 200 "Salary" "Income" "2024-01-03"]).
  plain_rows.
Defined.

(** *** The category maps of the summary *)

Lemma of_type_elem t df r :
  r ∈ of_type t df ↔ r ∈ df ∧ TrackerAgent.Type_ r = t.
Proof.
  unfold of_type. rewrite !list_elem_of_In, filter_In.
  split; intros [? Ht]; split; try done; by apply String.eqb_eq.
Qed.

Lemma category_total_of_type t c df :
  category_total t c (of_type t df) = category_total t c df.
Proof.
  induction df as [|r df IH]; simpl; [done|].
  destruct (String.eqb_spec (TrackerAgent.Type_ r) t) as [Ht|Ht]; simpl.
  - rewrite IH. by repeat case_decide.
  - rewrite IH. case_decide as Hd; [by destruct Hd|done].
Qed.

(** What grouping by category has summed under [c], starting from the map
    [m], over rows that are all of type [t]. *)
Lemma groupby_from t c frame (m : gmap string Q) :
  Forall (λ r, TrackerAgent.Type_ r = t) frame →
  match foldl (λ m r, <[TrackerAgent.Category r :=
                         (default 0%Q (m !! TrackerAgent.Category r)
                          + TrackerAgent.Amount r)%Q]> m) m frame !! c with
  | Some q =>
      (is_Some (m !! c) ∨ ∃ r, r ∈ frame ∧ TrackerAgent.Category r = c)
      ∧ (q == default 0 (m !! c) + category_total t c frame)%Q
  | None => m !! c = None ∧ ∀ r, r ∈ frame → TrackerAgent.Category r ≠ c
  end.
Proof.
  intros Hframe. revert m.
  induction Hframe as [|r frame Ht Hframe IH]; intros m; simpl.
  - destruct (m !! c) as [q|] eqn:Hm; simpl.
    + split; [left; by eexists|]. by rewrite Qplus_0_r.
    + split; [done|]. intros r Hr. by apply elem_of_nil in Hr.
  - specialize (IH (<[TrackerAgent.Category r :=
                       (default 0%Q (m !! TrackerAgent.Category r)
                        + TrackerAgent.Amount r)%Q]> m)).
    destruct (decide (TrackerAgent.Category r = c)) as [Hc|Hc].
    + rewrite decide_True by done. rewrite Hc in *.
      rewrite lookup_insert_eq in IH. simpl in IH.
      destruct (foldl _ _ frame !! c) as [q|].
      * destruct IH as [_ Hq]. split; [right; exists r; split; [by left|done]|].
        rewrite Hq. ring.
      * by destruct IH.
    + rewrite decide_False by by intros [_ ?].
      rewrite lookup_insert_ne in IH by done.
      destruct (foldl _ _ frame !! c) as [q|].
      * destruct IH as [[Hm|(r' & Hin & Hr')] Hq]; (split; [|done]);
          [by left | right; exists r'; split; [by right|done]].
      * destruct IH as [Hm Hnot]. split; [done|].
        intros r' [->|Hin]%elem_of_cons; [done|by apply Hnot].
Qed.

Lemma groupby_sum_spec t c df :
  match groupby_sum (of_type t df) !! c with
  | Some q => category_seen t c df ∧ (q == category_total t c df)%Q
  | None => ¬ category_seen t c df
  end.
Proof.
  pose proof (groupby_from t c (of_type t df) ∅) as H.
  unfold groupby_sum. rewrite lookup_empty in H. simpl in H.
  destruct (foldl _ _ _ !! c) as [q|].
  - destruct H as [[[? [=]]|(r & [Hin Ht]%of_type_elem & Hc)] Hq].
    { apply Forall_forall. by intros r [_ ?]%of_type_elem. }
    split; [by exists r|].
    by rewrite Hq, Qplus_0_l, category_total_of_type.
  - destruct H as [_ Hnot].
    { apply Forall_forall. by intros r [_ ?]%of_type_elem. }
    intros (r & Hin & Ht & Hc). apply (Hnot r); [|done]. by apply of_type_elem.
Qed.

(** X14. The two category maps of the summary of a store of plain rows
    with whole amounts. A category is a key of the income map exactly when
    some income record has it, and its value is the sum of the amounts of
    the income records of that category; the same holds of the expense map
    and the expense records. Both maps are empty for the empty store. *)
Theorem summary_by_category file :
  plain_store file →
  whole_amounts file →
  ∃ d income_by_category expenses_by_category,
    extra (show_summary file).1 = data d
    ∧ d !! "income_by_category" = Some (Dict income_by_category)
    ∧ d !! "expenses_by_category" = Some (Dict expenses_by_category)
    ∧ ∀ c,
        match income_by_category !! c with
        | Some q => category_seen "Income" c file
                    ∧ (q == category_total "Income" c file)%Q
        | None => ¬ category_seen "Income" c file
        end
        ∧ match expenses_by_category !! c with
          | Some q => category_seen "Expense" c file
                      ∧ (q == category_total "Expense" c file)%Q
          | None => ¬ category_seen "Expense" c file
          end.
Proof.
  intros _ _. destruct file as [|r file].
  - eexists _, ∅, ∅. repeat split; rewrite lookup_empty;
      intros (r & Hin & _); by apply elem_of_nil in Hin.
  - eexists _, _, _. split; [reflexivity|]. split; [reflexivity|].
    split; [reflexivity|]. intros c. split; apply groupby_sum_spec.
Qed.

Lemma summary_by_category_witness :
  ∃ d income_by_category expenses_by_category,
    extra (show_summary [Row 100 "Groceries" "Expense" "2024-01-01";
                         Row 50 "Groceries" "Expense" "2024-01-02";
                         Row 200 "Salary" "Income" "2024-01-03"]).1 = data d
    ∧ d !! "income_by_category" = Some (Dict income_by_category)
    ∧ d !! "expenses_by_category" = Some (Dict expenses_by_category)
    ∧ match expenses_by_category !! "Groceries" with
      | Some q => (q == 150)%Q
      | None => False
      end
    ∧ income_by_category !! "Groceries" = None.
Proof.
  destruct (summary_by_category
              [Row 100 "Groceries" "Expense" "2024-01-01";
               Row 50 "Groceries" "Expense" "2024-01-02";
               Row 200 "Salary" "Income" "2024-01-03"])
    as (d & inc & exp & Hd & Hinc & Hexp & Hmaps).
  - plain_rows.
  - whole_rows.
  - exists d, inc, exp. split; [exact Hd|]. split; [exact Hinc|].
    split; [exact Hexp|]. destruct (Hmaps "Groceries") as [Hi He]. split.
    + destruct (exp !! "Groceries") as [q|].
      * destruct He as [_ ->]. reflexivity.
      * destruct He. eexists. split; [by left|]. by split.
    + destruct (inc !! "Groceries") as [q|]; [|reflexivity].
      destruct Hi as [(r & Hin & Ht & Hc) _].
      repeat (apply elem_of_cons in Hin as [-> | Hin];
              [first [discriminate Ht | discriminate Hc]|]).
      by apply elem_of_nil in Hin.
Defined.

(** *** Totals before and after an operation *)

Lemma ledger_total_app t l1 l2 :
  (ledger_total t (l1 ++ l2) == ledger_total t l1 + ledger_total t l2)%Q.
Proof.
  induction l1 as [|r l1 IH]; simpl; [by rewrite Qplus_0_l|].
  case_decide; rewrite IH; [ring|done].
Qed.

Lemma ledger_total_delete t l i r :
  l !! i = Some r →
  (ledger_total t (delete i l)
   == ledger_total t l
      - (if decide (TrackerAgent.Type_ r = t) then TrackerAgent.Amount r else 0))%Q.
Proof.
  revert i. induction l as [|x l IH]; intros [|i] Hr; simpl in *; try done.
  - injection Hr as ->. case_decide; ring.
  - pose proof (IH i Hr) as H. repeat case_decide; rewrite H; ring.
Qed.

(** The totals that the summary reports. *)
Lemma reported_totals file :
  ∃ ti te b,
    reported "total_income" file = Some ti
    ∧ reported "total_expense" file = Some te
    ∧ reported "balance" file = Some b
    ∧ (ti == ledger_total "Income" file)%Q
    ∧ (te == ledger_total "Expense" file)%Q
    ∧ (b == ti - te)%Q.
Proof.
  unfold reported. destruct file as [|r file].
  - exists 0%Q, 0%Q, 0%Q. repeat split.
  - eexists _, _, _. split; [reflexivity|]. split; [reflexivity|].
    split; [reflexivity|]. repeat split; apply sum_of_type.
Qed.

Lemma reported_total_records r file :
  reported "total_records" (r :: file)
  = Some (inject_Z (Z.of_nat (length (r :: file)))).
Proof. reflexivity. Qed.

(** X15. What a successful save does to the summary, when the amounts of
    the store it leaves are whole. The total of the type of the saved record
    grows by its amount, the other total stays, and the summary reports the
    number of records, one more than before. *)
Theorem summary_after_save today text file :
  let saved := save_transaction today text file in
  success saved.1 = true →
  whole_amounts saved.2 →
  ∃ r ti te ti' te',
    extra saved.1 = transaction r
    ∧ reported "total_income" file = Some ti
    ∧ reported "total_expense" file = Some te
    ∧ reported "total_income" saved.2 = Some ti'
    ∧ reported "total_expense" saved.2 = Some te'
    ∧ reported "total_records" saved.2
      = Some (inject_Z (Z.of_nat (length file + 1)))
    ∧ ((TrackerAgent.Type_ r = "Income"
        ∧ (ti' == ti + TrackerAgent.Amount r)%Q ∧ (te' == te)%Q)
       ∨ (TrackerAgent.Type_ r = "Expense"
          ∧ (te' == te + TrackerAgent.Amount r)%Q ∧ (ti' == ti)%Q)).
Proof.
  intros saved Hok _. subst saved.
  destruct (save_transaction_cases today text file)
    as [(a & c & t & Hd & _ & _ & Hs)|[_ Hs]]; rewrite Hs in *; [|done].
  cbn [fst snd extra].
  destruct (reported_totals file) as (ti & te & _ & Hti & Hte & _ & Hi & He & _).
  destruct (reported_totals (file ++ [Row a (title c) t today]))
    as (ti' & te' & _ & Hti' & Hte' & _ & Hi' & He' & _).
  exists (Row a (title c) t today), ti, te, ti', te'.
  repeat (split; [done|]). split.
  - destruct file as [|r0 file]; [reflexivity|].
    change ((r0 :: file) ++ [Row a (title c) t today])
      with (r0 :: (file ++ [Row a (title c) t today])).
    rewrite reported_total_records. do 3 f_equal.
    cbn [length]. rewrite length_app. cbn [length]. lia.
  - rewrite ledger_total_app in Hi', He'. simpl in Hi', He'.
    pose proof (extract_type_values text t) as Ht. rewrite Hd in Ht.
    destruct (Ht eq_refl) as [-> | ->]; [right|left]; simpl in *;
      (split; [done|]); rewrite Hi', He', Hi, He; split; ring.
Qed.

Lemma summary_after_save_witness :
  ∃ r ti te ti' te',
    extra (save_transaction "2024-01-01" "I spent 150 on groceries" initial).1
    = transaction r
    ∧ reported "total_income" initial = Some ti
    ∧ reported "total_expense" initial = Some te
    ∧ reported "total_income"
        (save_transaction "2024-01-01" "I spent 150 on groceries" initial).2 = Some ti'
    ∧ reported "total_expense"
        (save_transaction "2024-01-01" "I spent 150 on groceries" initial).2 = Some te'
    ∧ reported "total_records"
        (save_transaction "2024-01-01" "I spent 150 on groceries" initial).2
      = Some (inject_Z (Z.of_nat (length initial + 1)))
    ∧ ((TrackerAgent.Type_ r = "Income"
        ∧ (ti' == ti + TrackerAgent.Amount r)%Q ∧ (te' == te)%Q)
       ∨ (TrackerAgent.Type_ r = "Expense"
          ∧ (te' == te + TrackerAgent.Amount r)%Q ∧ (ti' == ti)%Q)).
Proof.
  apply (summary_after_save "2024-01-01" "I spent 150 on groceries" initial).
  - reflexivity.
  - change (whole_amounts [Row 150 "Groceries" "Expense" "2024-01-01"]).
    whole_rows.
Defined.

(** X16. What a successful deletion does to the summary totals of a store
    of plain rows with whole amounts. The total of the type of the deleted
    record drops by its amount and the other total stays. *)
Theorem summary_after_delete index file :
  plain_store file →
  whole_amounts file →
  (0 ≤ index < Z.of_nat (length file))%Z →
  let deleted := delete_transaction index file in
  ∃ r ti te ti' te',
    extra deleted.1 = deleted_transaction r
    ∧ reported "total_income" file = Some ti
    ∧ reported "total_expense" file = Some te
    ∧ reported "total_income" deleted.2 = Some ti'
    ∧ reported "total_expense" deleted.2 = Some te'
    ∧ (ti' == ti - (if decide (TrackerAgent.Type_ r = "Income")
                    then TrackerAgent.Amount r else 0))%Q
    ∧ (te' == te - (if decide (TrackerAgent.Type_ r = "Expense")
                    then TrackerAgent.Amount r else 0))%Q.
Proof.
  intros _ _ Hrange deleted. subst deleted.
  destruct (lookup_lt_is_Some_2 file (Z.to_nat index)) as [r Hr]; [lia|].
  assert (delete_transaction index file
          = (Response true
               (Some (TransactionDeleted (TrackerAgent.Amount r) (TrackerAgent.Category r)))
               (deleted_transaction r),
             delete (Z.to_nat index) file)) as ->.
  { unfold delete_transaction, mbind, mret, io_bind, io_ret, read_csv, to_csv.
    simpl.
    destruct (Z.leb_spec 0 index); [|lia].
    destruct (Z.ltb_spec index (Z.of_nat (length file))); [|lia].
    simpl. by rewrite Hr. }
  cbn [fst snd extra].
  destruct (reported_totals file) as (ti & te & _ & Hti & Hte & _ & Hi & He & _).
  destruct (reported_totals (delete (Z.to_nat index) file))
    as (ti' & te' & _ & Hti' & Hte' & _ & Hi' & He' & _).
  exists r, ti, te, ti', te'. repeat (split; [done|]).
  rewrite Hi', He', Hi, He.
  split; by apply ledger_total_delete.
Qed.

Lemma summary_after_delete_witness :
  ∃ r ti te ti' te',
    extra (delete_transaction 1
             [Row 100 "Groceries" "Expense" "2024-01-01";
              Row 200 "Salary" "Income" "2024-01-03"]).1 = deleted_transaction r
    ∧ reported "total_income"
        [Row 100 "Groceries" "Expense" "2024-01-01";
         Row 200 "Salary" "Income" "2024-01-03"] = Some ti
    ∧ reported "total_expense"
        [Row 100 "Groceries" "Expense" "2024-01-01";
         Row 200 "Salary" "Income" "2024-01-03"] = Some te
    ∧ reported "total_income"
        (delete_transaction 1
           [Row 100 "Groceries" "Expense" "2024-01-01";
            Row 200 "Salary" "Income" "2024-01-03"]).2 = Some ti'
    ∧ reported "total_expense"
        (delete_transaction 1
           [Row 100 "Groceries" "Expense" "2024-01-01";
            Row 200 "Salary" "Income" "2024-01-03"]).2 = Some te'
    ∧ (ti' == ti - (if decide (TrackerAgent.Type_ r = "Income")
                    then TrackerAgent.Amount r else 0))%Q
    ∧ (te' == te - (if decide (TrackerAgent.Type_ r = "Expense")
                    then TrackerAgent.Amount r else 0))%Q.
Proof.
  apply (summary_after_delete 1
           [Row 100 "Groceries" "Expense" "2024-01-01";
            Row 200 "Salary" "Income" "2024-01-03"]).
  - plain_rows.
  - whole_rows.
  - simpl. lia.
Defined.

Lemma typed_category_present text t :
  Tools.Type_ (extract_expense_info text) = Some t →
  ∃ c, Tools.Category (extract_expense_info text) = Some c ∧ c ≠ "".
Proof.
  unfold extract_expense_info.
  repeat match goal with |- context [if ?x then _ else _] => destruct x end;
    simpl; intros H; try done;
    eauto using expense_category_nonempty, income_category_nonempty.
Qed.

(** X22. When a text is persisted. [save_transaction] succeeds, and then
    appends one record, exactly when the extractor typed the text and read
    an amount that is not 0; otherwise it answers that it could not
    understand and the store stays as it was. *)
Theorem save_succeeds_iff today text file :
  let d := extract_expense_info text in
  let saved := save_transaction today text file in
  (success saved.1 = true ↔
     (∃ t, Tools.Type_ d = Some t) ∧ ∃ a, Tools.Amount d = Some a ∧ ¬ (a == 0)%Q)
  ∧ (success saved.1 = true → length saved.2 = S (length file))
  ∧ (success saved.1 = false →
     saved = (Response false (Some CouldNotUnderstand) (extracted d), file)).
Proof.
  intros d saved. subst saved.
  destruct (save_transaction_cases today text file)
    as [(a & c & t & Hd & Hnz & Hc & ->)|[Hguard ->]]; fold d in Hd || fold d in Hguard.
  - simpl. rewrite Hd. simpl. repeat split; try done; eauto.
    rewrite length_app. simpl. lia.
  - simpl. split; [|done]. split; [done|].
    intros [[t Ht] (a & Ha & Hnz)].
    destruct (typed_category_present text t Ht) as (c & Hcat & Hne).
    fold d in Hcat. rewrite Ha, Hcat, Ht in Hguard. simpl in Hguard.
    destruct (Qeq_bool a 0) eqn:Hz; [by apply Qeq_bool_iff in Hz|].
    destruct c; [done|]. simpl in Hguard.
    pose proof (extract_type_values text t Ht) as [-> | ->]; done.
Qed.

Lemma Qplus_nonneg a b : (0 <= a)%Q → (0 <= b)%Q → (0 <= a + b)%Q.
Proof. intros Ha Hb. exact (Qplus_le_compat 0 a 0 b Ha Hb). Qed.

(** X18. In a store of well-formed records with whole amounts every
    record is counted in exactly one of the two totals of the summary:
    neither total is negative, they add up to the sum of all the amounts,
    and the balance is at most the total income. *)
Theorem valid_store_accounting file :
  valid_store file →
  whole_amounts file →
  ∃ ti te b,
    reported "total_income" file = Some ti
    ∧ reported "total_expense" file = Some te
    ∧ reported "balance" file = Some b
    ∧ (0 <= ti)%Q ∧ (0 <= te)%Q
    ∧ (ti + te == ledger_sum file)%Q
    ∧ (b <= ti)%Q.
Proof.
  intros Hvalid _.
  assert ((0 <= ledger_total "Income" file)%Q ∧ (0 <= ledger_total "Expense" file)%Q
          ∧ (ledger_total "Income" file + ledger_total "Expense" file
             == ledger_sum file)%Q) as (Hi0 & He0 & Hsum).
  { induction Hvalid as [|r file (Hpos & _ & Ht) _ (IHi & IHe & IHs)].
    - repeat split; done.
    - cbn [ledger_total ledger_sum]. apply Qlt_le_weak in Hpos.
      destruct Ht as [Ht|Ht]; rewrite Ht.
      + rewrite decide_True, decide_False by done. rewrite <- IHs.
        split; [by apply Qplus_nonneg|]. split; [done|ring].
      + rewrite decide_False, decide_True by done. rewrite <- IHs.
        split; [done|]. split; [by apply Qplus_nonneg|ring]. }
  destruct (reported_totals file) as (ti & te & b & Hti & Hte & Hb & Hi & He & Hbal).
  exists ti, te, b. repeat (split; [done|]).
  rewrite Hi, He, Hbal, Hi, He. repeat split; try done.
  rewrite <- (Qplus_0_r (ledger_total "Income" file)) at 2.
  unfold Qminus. apply Qplus_le_r.
  apply (Qopp_le_compat 0). exact He0.
Qed.

Lemma valid_store_accounting_witness :
  ∃ ti te b,
    reported "total_income" [Row 100 "Groceries" "Expense" "2024-01-01";
                             Row 200 "Salary" "Income" "2024-01-03"] = Some ti
    ∧ reported "total_expense" [Row 100 "Groceries" "Expense" "2024-01-01";
                                Row 200 "Salary" "Income" "2024-01-03"] = Some te
    ∧ reported "balance" [Row 100 "Groceries" "Expense" "2024-01-01";
                          Row 200 "Salary" "Income" "2024-01-03"] = Some b
    ∧ (0 <= ti)%Q ∧ (0 <= te)%Q
    ∧ (ti + te == ledger_sum [Row 100 "Groceries" "Expense" "2024-01-01";
                              Row 200 "Salary" "Income" "2024-01-03"])%Q
    ∧ (b <= ti)%Q.
Proof.
  apply valid_store_accounting.
  - repeat (apply Forall_cons; split; [repeat split; auto; done|]).
    by apply Forall_nil.
  - whole_rows.
Defined.

(** *** The summary tab *)

Lemma Qgt_bool_spec x y : negb (Qle_bool x y) = true ↔ (y < x)%Q.
Proof.
  rewrite negb_true_iff. split.
  - intros Hle. apply Qnot_le_lt. intros H%Qle_bool_iff. congruence.
  - intros Hlt. apply not_true_is_false. intros H%Qle_bool_iff.
    by apply Qle_not_lt in H.
Qed.

(** X19. The two status functions of the interface go by the same bands of
    the balance: above 1000 both say green, above 0 and up to 1000 both say
    yellow, and at 0 or below, a balance of exactly 0 included, both give
    the red warning of spending more than is earned. *)
Theorem status_bands balance :
  ((1000 < balance)%Q ↔ App.get_status_emoji balance = "🟢")
  ∧ ((1000 < balance)%Q ↔
       App.get_balance_status balance = "Great! You're in good financial shape.")
  ∧ ((0 < balance)%Q ∧ (balance <= 1000)%Q ↔ App.get_status_emoji balance = "🟡")
  ∧ ((0 < balance)%Q ∧ (balance <= 1000)%Q ↔
       App.get_balance_status balance
       = "You're doing okay, but watch your spending.")
  ∧ ((balance <= 0)%Q ↔ App.get_status_emoji balance = "🔴")
  ∧ ((balance <= 0)%Q ↔
       App.get_balance_status balance
       = "Warning: You're spending more than you earn!").
Proof.
  unfold App.get_status_emoji, App.get_balance_status.
  assert (∀ y, Qle_bool balance y = false → (y < balance)%Q) as Hgt.
  { intros y Hy. apply Qgt_bool_spec. by rewrite Hy. }
  destruct (Qle_bool balance 1000) eqn:H1, (Qle_bool balance 0) eqn:H0;
    first [apply Qle_bool_iff in H1 | apply Hgt in H1];
    first [apply Qle_bool_iff in H0 | apply Hgt in H0];
    simpl; repeat split; intros;
    repeat match goal with H : _ ∧ _ |- _ => destruct H end;
    try discriminate; try done; try lra; try (exfalso; lra).
Qed.

Lemma groupby_sum_empty t df :
  groupby_sum (of_type t df) = ∅ ↔ ¬ ∃ r, r ∈ df ∧ TrackerAgent.Type_ r = t.
Proof.
  split.
  - intros Hempty (r & Hin & Ht).
    pose proof (groupby_sum_spec t (TrackerAgent.Category r) df) as H.
    rewrite Hempty, lookup_empty in H. apply H. by exists r.
  - intros Hnone. apply map_empty. intros c.
    pose proof (groupby_sum_spec t c df) as H.
    destruct (groupby_sum (of_type t df) !! c); [|done].
    destruct H as [(r & Hin & Ht & _) _]. destruct Hnone. by exists r.
Qed.

Lemma chart_present t df :
  is_Some (App.chart (groupby_sum (of_type t df)))
  ↔ ∃ r, r ∈ df ∧ TrackerAgent.Type_ r = t.
Proof.
  unfold App.chart. case_decide as Hm.
  - apply groupby_sum_empty in Hm. split; [by intros [? [=]]|done].
  - split; [|by eexists]. intros _.
    destruct (of_type t df) as [|r l] eqn:Hf; [done|].
    exists r. apply of_type_elem. rewrite Hf. by left.
Qed.

(** X20. The summary tab, on the answer of [show_summary] for a store of
    plain rows with whole amounts. For the empty store it ends in the error
    branch, with the text of the missing key ["total_records"] and no
    chart. For a store with records it renders the totals, the balance and
    the number of records that the summary computed, with the status of
    that balance; the expense chart is drawn exactly when some record is an
    expense and the income chart exactly when some record is an income. *)
Theorem get_summary_view file :
  plain_store file →
  whole_amounts file →
  match App.get_summary (show_summary file).1 with
  | App.Failed text => file = [] ∧ text = "❌ **Error:** 'total_records'"
  | App.Rendered total_income total_expense balance total_records
      status_emoji status_text expense_chart income_chart =>
      file ≠ []
      ∧ (total_income == ledger_total "Income" file)%Q
      ∧ (total_expense == ledger_total "Expense" file)%Q
      ∧ (balance == total_income - total_expense)%Q
      ∧ total_records = inject_Z (Z.of_nat (length file))
      ∧ status_emoji = App.get_status_emoji balance
      ∧ status_text = App.get_balance_status balance
      ∧ (is_Some expense_chart ↔ ∃ r, r ∈ file ∧ TrackerAgent.Type_ r = "Expense")
      ∧ (is_Some income_chart ↔ ∃ r, r ∈ file ∧ TrackerAgent.Type_ r = "Income")
  end.
Proof.
  intros _ _. destruct file as [|r file].
  - by vm_compute.
  - set (df := r :: file).
    assert (App.get_summary (show_summary df).1
            = App.Rendered
                (sum (TrackerAgent.Amount <$> of_type "Income" df))
                (sum (TrackerAgent.Amount <$> of_type "Expense" df))
                (sum (TrackerAgent.Amount <$> of_type "Income" df)
                 - sum (TrackerAgent.Amount <$> of_type "Expense" df))
                (inject_Z (Z.of_nat (length df)))
                (App.get_status_emoji
                   (sum (TrackerAgent.Amount <$> of_type "Income" df)
                    - sum (TrackerAgent.Amount <$> of_type "Expense" df)))
                (App.get_balance_status
                   (sum (TrackerAgent.Amount <$> of_type "Income" df)
                    - sum (TrackerAgent.Amount <$> of_type "Expense" df)))
                (App.chart (groupby_sum (of_type "Expense" df)))
                (App.chart (groupby_sum (of_type "Income" df)))) as ->
      by reflexivity.
    split; [done|]. split; [apply sum_of_type|]. split; [apply sum_of_type|].
    split; [done|]. split; [done|]. split; [done|]. split; [done|].
    split; apply chart_present.
Qed.

Lemma get_summary_view_witness :
  match App.get_summary
          (show_summary [Row 100 "Groceries" "Expense" "2024-01-01";
                         Row 200 "Salary" "Income" "2024-01-03"]).1 with
  | App.Failed text => False
  | App.Rendered total_income total_expense balance total_records
      status_emoji status_text expense_chart income_chart =>
      (total_income == 200)%Q ∧ (total_expense == 100)%Q ∧ (balance == 100)%Q
      ∧ total_records = 2%Q
      ∧ is_Some expense_chart ∧ is_Some income_chart
  end.
Proof.
  pose proof (get_summary_view
                [Row 100 "Groceries" "Expense" "2024-01-01";
                 Row 200 "Salary" "Income" "2024-01-03"]) as H.
  destruct (App.get_summary _) as [ti te b n emoji text ec ic|text].
  - destruct H as (_ & Hi & He & Hb & Hn & _ & _ & Hec & Hic).
    + plain_rows.
    + whole_rows.
    + split; [exact Hi|]. split; [exact He|].
      split; [rewrite Hb, Hi, He; reflexivity|]. split; [exact Hn|].
      split.
      * apply Hec. eexists. split; [by left|reflexivity].
      * apply Hic. eexists. split; [right; by left|reflexivity].
  - destruct H as [Hnil _]; [plain_rows|whole_rows|discriminate Hnil].
Defined.

End LedgerCoverage.

(** The two examples of the specification. *)
Example extract_groceries : Tools.extract_expense_info "I spent 150 on groceries"
  = Tools.Info (Some (150 # 1)) (Some "Groceries") (Some "Expense").
Proof. reflexivity. Qed.
Example extract_salary : Tools.extract_expense_info "Received 5000 salary from company"
  = Tools.Info (Some (5000 # 1)) (Some "Salary") (Some "Income").
Proof. reflexivity. Qed.
